(** * lumin.nn.models.model_builder: the ModelBuilder configuration factory

    A shallow embedding of [ModelBuilder] (src/lumin/nn/models/model_builder.py)
    and the properties of its configuration-resolution logic.

    Modelling choices.
    - Python values met in the configuration mappings are the inductive
      [pyval]; floats are IEEE binary64 values ([spec_float]).
    - [str] is Rocq's [string]; [str.lower] is the ASCII lower-casing
      (characters outside A-Z are left alone).
    - A [Dict[str,Any]] is an association list in insertion order
      ([dict]); assignment to a key updates in place or appends.
    - Dictionaries that outlive a call are objects in a [store], referred
      to by location: the builder's [opt_args] is mutated in place by
      [set_lr], and an optimizer owns the keyword arguments it was built
      from.
    - Exceptions are the [Raise] branch of [result].
    - Modules of the tensor framework are the constructors of [Module],
      each recording the arguments of the call that built it.  The three
      injected collaborators ([body], [lookup_init], [lookup_act]) are
      fields of the builder, as in the source. *)

From Stdlib Require Import ZArith Bool List Ascii String.
From Stdlib Require Import Floats.SpecFloat.
From stdpp Require Import base option gmap fin_maps.
Import ListNotations.
Local Open Scope string_scope.
Local Open Scope Z_scope.

Set Warnings "-register-all".

(** ** Python values *)

Inductive pyval : Type :=
| VNone
| VBool (b : bool)
| VInt (n : Z)
| VFloat (f : spec_float)
| VStr (s : string)
| VTuple (vs : list pyval)
| VObj (name : string).

(** Exceptions the builder's own code can raise. *)
Inductive exn : Type :=
| ValueError (msg : string)
| AttributeError
| TypeError.

Inductive result (A : Type) : Type :=
| Ok (a : A)
| Raise (e : exn).
Arguments Ok {A} a.
Arguments Raise {A} e.

Definition bind {A B} (r : result A) (k : A -> result B) : result B :=
  match r with
  | Ok a => k a
  | Raise e => Raise e
  end.

Notation "'let*' x ':=' r 'in' k" := (bind r (fun x => k))
  (at level 10, x pattern, r at level 100, k at level 200).

(** Truth value of an object, as tested by [if x]. *)
Definition truthy (v : pyval) : bool :=
  match v with
  | VNone => false
  | VBool b => b
  | VInt n => negb (n =? 0)
  | VFloat (S754_zero _) => false
  | VFloat _ => true
  | VStr s => negb (String.eqb s "")
  | VTuple vs => match vs with [] => false | _ :: _ => true end
  | VObj _ => true
  end.

(** [x == s] for a string literal [s]. *)
Definition eq_str (v : pyval) (s : string) : bool :=
  match v with
  | VStr t => String.eqb t s
  | _ => false
  end.

(** [x - 1]. *)
Definition sub1 (v : pyval) : result pyval :=
  match v with
  | VInt n => Ok (VInt (n - 1))
  | VBool b => Ok (VInt ((if b then 1 else 0) - 1))
  | VFloat f => Ok (VFloat (SFsub 53 1024 f (SFone 53 1024)))
  | _ => Raise TypeError
  end.

(** ** Strings *)

Definition lower_ascii (c : ascii) : ascii :=
  let n := N_of_ascii c in
  if ((65 <=? n) && (n <=? 90))%N then ascii_of_N (n + 32) else c.

(** [s.lower()] *)
Fixpoint lower (s : string) : string :=
  match s with
  | EmptyString => EmptyString
  | String c s' => String (lower_ascii c) (lower s')
  end.

(** [sub in s] *)
Fixpoint contains (sub s : string) : bool :=
  String.prefix sub s ||
  match s with
  | EmptyString => false
  | String _ s' => contains sub s'
  end.

(** [x.lower()] on an arbitrary object: only [str] has the method. *)
Definition py_lower (v : pyval) : result string :=
  match v with
  | VStr s => Ok (lower s)
  | _ => Raise AttributeError
  end.

(** ** Dictionaries *)

Abbreviation dict := (list (string * pyval)).

(** [d.get(k)]: [None] when [k not in d]. *)
Fixpoint dict_get (k : string) (d : dict) : option pyval :=
  match d with
  | [] => None
  | (k', v) :: d' => if String.eqb k k' then Some v else dict_get k d'
  end.

(** [k in d] *)
Definition dict_mem (k : string) (d : dict) : bool :=
  match dict_get k d with Some _ => true | None => false end.

(** [d[k] = v]: a present key keeps its place, a new key goes last. *)
Fixpoint dict_set (k : string) (v : pyval) (d : dict) : dict :=
  match d with
  | [] => [(k, v)]
  | (k', v') :: d' =>
      if String.eqb k k' then (k', v) :: d' else (k', v') :: dict_set k v d'
  end.

(** [{k.lower(): d[k] for k in d}] *)
Definition lower_keys (d : dict) : dict :=
  fold_left (fun acc kv => dict_set (lower (fst kv)) (snd kv) acc) d [].

(** [{k: d[k] for k in d if k != x}] *)
Definition without_key (x : string) (d : dict) : dict :=
  List.filter (fun kv => negb (String.eqb (fst kv) x)) d.

(** The keys of a dictionary are pairwise distinct. *)
Definition dict_wf (d : dict) : Prop := List.NoDup (List.map fst d).

(** ** Modules of the tensor framework *)

(** A module supplied by a collaborator (an activation, a network body):
    its identity, the value of its [get_out_size()] accessor when it has
    one, and [len(p)] for each tensor [p] of its [parameters()]. *)
Record Extern : Type := {
  ext_name : string;
  get_out_size : option pyval;
  parameters : list Z
}.

Inductive Module : Type :=
| Linear (fan_in fan_out : pyval) (init : pyval) (init_args : dict)
| BatchNorm1d (num_features : pyval)
| AlphaDropout (p : pyval)
| Dropout (p : pyval)
| Ext (m : Extern)
| Sequential (layers : list Module).

(** ** The store *)

Abbreviation loc := nat.
Abbreviation store := (gmap nat dict).

(** A new dictionary object. *)
Definition alloc (d : dict) (s : store) : loc * store :=
  let l := fresh (dom s) in (l, <[l := d]> s).

(** The contents of a dictionary object. *)
Definition deref (l : loc) (s : store) : dict := default [] (s !! l).

Inductive OptClass : Type := Adam | SGD.

(** An optimizer: its class, the model whose parameters it was given and
    the keyword arguments it was called with, an object of its own. *)
Record Optimizer : Type := {
  opt_class : OptClass;
  opt_model : Module;
  opt_kwargs : loc
}.

(** ** ModelBuilder *)

(** The [loss] argument: the constant ['auto'] itself (the test is [is]),
    or any other object. *)
Inductive LossArg : Type :=
| Auto
| Given (v : pyval).

Definition NLLLoss : pyval := VObj "torch.nn.NLLLoss".
Definition BCELoss : pyval := VObj "torch.nn.BCELoss".
Definition MSELoss : pyval := VObj "torch.nn.MSELoss".

Definition BodyBuilder : Type :=
  pyval -> pyval -> pyval -> pyval -> string -> pyval -> pyval -> Extern.
Definition InitLookup : Type := string -> pyval -> pyval -> pyval * dict.
Definition ActLookup : Type := string -> Extern.

Record ModelBuilder : Type := {
  objective : string;
  n_in : Z;
  n_out : Z;
  body : BodyBuilder;
  lookup_init : InitLookup;
  lookup_act : ActLookup;
  loss : pyval;
  width : pyval;
  depth : pyval;
  do : pyval;
  bn : pyval;
  act : string;
  res : pyval;
  dense : pyval;
  opt : pyval;
  opt_args : loc
}.

(** [parse_loss]; [objective] is the lower-cased one. *)
Definition parse_loss (objective : string) (n_out : Z) (loss : LossArg) : pyval :=
  match loss with
  | Auto =>
      if contains "class" objective then
        if (1 <? n_out) && contains "multi" objective then NLLLoss else BCELoss
      else MSELoss
  | Given v => v
  end.

(** The attributes set by [parse_model_args]. *)
Record ModelArgs : Type := {
  ma_width : pyval;
  ma_depth : pyval;
  ma_do : pyval;
  ma_bn : pyval;
  ma_act : string;
  ma_res : pyval;
  ma_dense : pyval
}.

(** [dflt if k not in d else d[k]] *)
Definition get_or (k : string) (dflt : pyval) (d : dict) : pyval :=
  match dict_get k d with
  | None => dflt
  | Some v => v
  end.

Definition parse_model_args (model_args : dict) : result ModelArgs :=
  let model_args := lower_keys model_args in
  let width := get_or "width" (VInt 100) model_args in
  let depth := get_or "depth" (VInt 4) model_args in
  let do := get_or "do" (VInt 0) model_args in
  let bn := get_or "bn" (VBool false) model_args in
  let* act := match dict_get "act" model_args with
              | None => Ok "relu"
              | Some v => py_lower v
              end in
  let res := get_or "res" (VBool false) model_args in
  let dense := get_or "dense" (VBool false) model_args in
  Ok {| ma_width := width; ma_depth := depth; ma_do := do; ma_bn := bn;
        ma_act := act; ma_res := res; ma_dense := dense |}.

(** [x in ['adam', 'sgd']] *)
Definition supported_opt (v : pyval) : bool := eq_str v "adam" || eq_str v "sgd".

(** The optimizer kind [parse_opt_args] resolves. *)
Definition resolve_opt (opt_args : dict) : pyval :=
  get_or "opt" (VStr "adam") (lower_keys opt_args).

(** [parse_opt_args]: the resolved kind and the new [self.opt_args]. *)
Definition parse_opt_args (opt_args : dict) (s : store) : result (pyval * loc) * store :=
  let opt_args := lower_keys opt_args in
  let opt := get_or "opt" (VStr "adam") opt_args in
  if negb (supported_opt opt) then
    (Raise (ValueError "Optimiser not currently available"), s)
  else
    let (l, s') := alloc (without_key "opt" opt_args) s in
    (Ok (opt, l), s').

(** [ModelBuilder.__init__] *)
Definition Construct (objective : string) (n_in n_out : Z)
    (model_args opt_args : dict) (loss : LossArg)
    (body : BodyBuilder) (lookup_init : InitLookup) (lookup_act : ActLookup)
    (s : store) : result ModelBuilder * store :=
  let objective := lower objective in
  let loss := parse_loss objective n_out loss in
  match parse_model_args model_args with
  | Raise e => (Raise e, s)
  | Ok ma =>
      match parse_opt_args opt_args s with
      | (Raise e, s') => (Raise e, s')
      | (Ok (opt, l), s') =>
          (Ok {| objective := objective; n_in := n_in; n_out := n_out;
                 body := body; lookup_init := lookup_init; lookup_act := lookup_act;
                 loss := loss;
                 width := ma_width ma; depth := ma_depth ma; do := ma_do ma;
                 bn := ma_bn ma; act := ma_act ma; res := ma_res ma;
                 dense := ma_dense ma;
                 opt := opt; opt_args := l |}, s')
      end
  end.

(** [build_opt]: the keyword arguments [**self.opt_args] are a copy made at
    the call.  [None] is the fall-through of the [if]/[elif]. *)
Definition build_opt (self : ModelBuilder) (model : Module) (s : store)
    : option Optimizer * store :=
  if eq_str (opt self) "adam" then
    let (k, s') := alloc (deref (opt_args self) s) s in
    (Some {| opt_class := Adam; opt_model := model; opt_kwargs := k |}, s')
  else if eq_str (opt self) "sgd" then
    let (k, s') := alloc (deref (opt_args self) s) s in
    (Some {| opt_class := SGD; opt_model := model; opt_kwargs := k |}, s')
  else (None, s).

(** [set_lr]: an assignment into the dictionary object [self.opt_args]. *)
Definition set_lr (self : ModelBuilder) (lr : pyval) (s : store) : store :=
  alter (dict_set "lr" lr) (opt_args self) s.

(** An argument that may be [None]: [None] is the omitted argument. *)
Definition optional (v : pyval) : option pyval :=
  match v with
  | VNone => None
  | _ => Some v
  end.

Definition get_dense (self : ModelBuilder) (fan_in fan_out : option pyval)
    (act0 : option string) (last_layer : bool) : Module :=
  let fan_in := match fan_in with None => width self | Some x => x end in
  let fan_out := match fan_out with None => width self | Some x => x end in
  let act := match act0 with None => act self | Some a => a end in
  let layers : list Module := [] in
  let '(init, args) := lookup_init self act fan_in fan_out in
  let layers := (layers ++ [Linear fan_in fan_out init args])%list in
  let layers :=
    if negb (String.eqb act "linear") then (layers ++ [Ext (lookup_act self act)])%list
    else layers in
  let layers :=
    if truthy (bn self) && negb last_layer then (layers ++ [BatchNorm1d fan_out])%list
    else layers in
  let layers :=
    if truthy (do self) && negb last_layer then
      if String.eqb act "selu" then (layers ++ [AlphaDropout (do self)])%list
      else (layers ++ [Dropout (do self)])%list
    else layers in
  Sequential layers.

Definition get_head (self : ModelBuilder) : Module :=
  get_dense self (Some (VInt (n_in self))) None None false.

Definition get_body (self : ModelBuilder) (depth : pyval) : Extern :=
  body self depth (width self) (do self) (bn self) (act self) (res self) (dense self).

Definition get_tail (self : ModelBuilder) (n_in : pyval) : Module :=
  if contains "class" (objective self) then
    if contains "multi" (objective self) then
      get_dense self (optional n_in) (Some (VInt (n_out self))) (Some "logsoftmax") true
    else
      get_dense self (optional n_in) (Some (VInt (n_out self))) (Some "sigmoid") true
  else
    get_dense self (optional n_in) (Some (VInt (n_out self))) (Some "linear") true.

(** The width [build_model] reads off the body: the accessor when the
    body has one, else [len] of the last of its parameters. *)
Definition body_out_size (b : Extern) : result pyval :=
  match get_out_size b with
  | Some n => Ok n
  | None =>
      match List.last (List.map Some (parameters b)) None with
      | Some n => Ok (VInt n)
      | None => Raise (ValueError "not enough values to unpack")
      end
  end.

Definition build_model (self : ModelBuilder) : result Module :=
  let head := get_head self in
  let* d := sub1 (depth self) in
  let body := get_body self d in
  let* out_size := body_out_size body in
  let tail := get_tail self out_size in
  Ok (Sequential [head; Ext body; tail]).

Definition get_model (self : ModelBuilder) (s : store)
    : result (Module * option Optimizer * pyval) * store :=
  match build_model self with
  | Raise e => (Raise e, s)
  | Ok model =>
      let (o, s') := build_opt self model s in
      (Ok (model, o, loss self), s')
  end.

(** ** Collaborators used to exercise the builder on concrete inputs *)

Definition stub_act : ActLookup :=
  fun a => {| ext_name := a; get_out_size := None; parameters := [] |}.
Definition stub_init : InitLookup := fun a _ _ => (VObj a, []).
Definition stub_body : BodyBuilder :=
  fun _ width _ _ _ _ _ =>
    {| ext_name := "body"; get_out_size := Some width; parameters := [] |}.

(** A body without [get_out_size], with four parameter tensors. *)
Definition stub_body_params : BodyBuilder :=
  fun _ _ _ _ _ _ _ =>
    {| ext_name := "body"; get_out_size := None; parameters := [64; 64; 32; 32] |}.

(** ** Reading a configuration mapping without regard to case *)

(** The value of the last entry of [d] whose lower-cased key is [k]. *)
Fixpoint lookup_ci (k : string) (d : dict) : option pyval :=
  match d with
  | [] => None
  | (k', v) :: d' =>
      match lookup_ci k d' with
      | Some w => Some w
      | None => if String.eqb (lower k') k then Some v else None
      end
  end.

(** The keys [parse_model_args] reads. *)
Definition recognized : list string :=
  ["width"; "depth"; "do"; "bn"; "act"; "res"; "dense"].

(** No key of [d] is [k] up to case. *)
Definition missing (k : string) (d : dict) : Prop :=
  forall k', In k' (List.map fst d) -> lower k' <> k.

(** The value given for ["act"] is not a string. *)
Definition act_not_str (d : dict) : Prop :=
  exists v, lookup_ci "act" d = Some v /\ forall a, v <> VStr a.

(** What [parse_model_args] resolves from a mapping with none of the
    recognized keys. *)
Definition default_model_args : ModelArgs :=
  {| ma_width := VInt 100; ma_depth := VInt 4; ma_do := VInt 0;
     ma_bn := VBool false; ma_act := "relu"; ma_res := VBool false;
     ma_dense := VBool false |}.

(** Two mappings with the same entries up to the case of their keys. *)
Definition same_up_to_case (d1 d2 : dict) : Prop :=
  Forall2 (fun x y => lower (fst x) = lower (fst y) /\ snd x = snd y) d1 d2.

(** The layers of a sequential module, and the last of them. *)
Definition layers_of (m : Module) : list Module :=
  match m with
  | Sequential ls => ls
  | _ => []
  end.

Definition final_layer (m : Module) : option Module :=
  List.last (List.map Some (layers_of m)) None.

(** What holds of a builder between calls: its optimizer kind is one of
    the two supported ones and its [opt_args] is a live dictionary. *)
Definition builder_inv (self : ModelBuilder) (s : store) : Prop :=
  supported_opt (opt self) = true /\ is_Some (s !! opt_args self).

(** Every key of the mapping is spelled in lower case. *)
Definition keys_lower (d : dict) : Prop :=
  Forall (fun kv => lower (fst kv) = fst kv) d.

(** What holds of the keyword arguments kept for the optimizer: distinct
    keys, all in lower case, none of them ["opt"]. *)
Definition kwargs_ok (d : dict) : Prop :=
  dict_wf d /\ keys_lower d /\ ~ In "opt" (List.map fst d).

(** ** lumin.plotting.interpretation: the clustering switch

    [plot_1d_partial_dependence] passes
    [cluster=n_clusters is not None or n_clusters != 0] to [pdp.pdp_plot];
    the rest of the function is calls into the plotting libraries. *)

(** [x is None] *)
Definition is_None (v : pyval) : bool :=
  match v with
  | VNone => true
  | _ => false
  end.

(** [x == 0] *)
Definition eq_zero (v : pyval) : bool :=
  match v with
  | VInt n => n =? 0
  | VBool b => negb b
  | VFloat (S754_zero _) => true
  | _ => false
  end.

(** The [cluster] argument of the call to [pdp.pdp_plot]. *)
Definition cluster_arg (n_clusters : pyval) : bool :=
  negb (is_None n_clusters) || negb (eq_zero n_clusters).

(** * Properties *)

(** Splits on the condition of a conditional in the goal. *)
Ltac case_if :=
  match goal with
  | |- context [if ?c then _ else _] => destruct c eqn:?
  end.

(** The same on a hypothesis. *)
Ltac case_if_in H :=
  match type of H with
  | context [if ?c then _ else _] => destruct c eqn:?
  end.


(** ** Strings *)

Lemma lower_ascii_idem (c : ascii) : lower_ascii (lower_ascii c) = lower_ascii c.
Proof. destruct c as [[] [] [] [] [] [] [] []]; reflexivity. Qed.

Lemma lower_idem (s : string) : lower (lower s) = lower s.
Proof.
  induction s as [|c s IH]; simpl; [reflexivity|].
  now rewrite lower_ascii_idem, IH.
Qed.

Lemma eq_str_true (v : pyval) (s : string) : eq_str v s = true <-> v = VStr s.
Proof.
  destruct v; simpl; try (split; [discriminate | intros H; discriminate H]).
  rewrite String.eqb_eq. split; [now intros -> | now intros [= ->]].
Qed.

Lemma supported_opt_true (v : pyval) :
  supported_opt v = true <-> v = VStr "adam" \/ v = VStr "sgd".
Proof.
  unfold supported_opt. rewrite orb_true_iff, !eq_str_true. reflexivity.
Qed.

(** A supported kind is spelled in lower case. *)
Lemma supported_opt_lower (s : string) :
  supported_opt (VStr s) = true -> lower s = s.
Proof.
  rewrite supported_opt_true. intros [[= ->] | [= ->]]; reflexivity.
Qed.

(** [sub in s] holds exactly when [s] is [sub] between two strings. *)
Lemma prefix_app (sub s : string) :
  String.prefix sub s = true <-> exists post, s = sub ++ post.
Proof.
  revert s. induction sub as [|c sub IH]; intros s; simpl.
  - split; [intros _; now exists s | destruct s; reflexivity].
  - destruct s as [|c' s]; simpl.
    + split; [discriminate | intros [post H]; discriminate H].
    + destruct (Ascii.ascii_dec c c') as [->|Hne].
      * rewrite IH. split; intros [post H]; exists post;
          [now rewrite H | now injection H].
      * split; [discriminate|]. intros [post H]. injection H as H1 _.
        now destruct Hne.
Qed.

Lemma contains_spec (sub s : string) :
  contains sub s = true <-> exists pre post, s = pre ++ sub ++ post.
Proof.
  induction s as [|c s IH]; cbn [contains].
  - rewrite orb_false_r, prefix_app. split.
    + intros [post H]. now exists "", post.
    + intros [pre [post H]]. destruct pre; [now exists post | discriminate H].
  - rewrite orb_true_iff, prefix_app, IH. split.
    + intros [[post H] | [pre [post H]]].
      * now exists "", post.
      * exists (String c pre), post. simpl. now rewrite H.
    + intros [pre [post H]]. destruct pre as [|c' pre]; simpl in H.
      * left. now exists post.
      * right. injection H as _ H. now exists pre, post.
Qed.

(** ** Dictionaries *)

Lemma dict_get_set_eq (k : string) (v : pyval) (d : dict) :
  dict_get k (dict_set k v d) = Some v.
Proof.
  induction d as [|[k' v'] d IH]; simpl.
  - now rewrite String.eqb_refl.
  - destruct (String.eqb_spec k k') as [->|Hne]; simpl.
    + now rewrite String.eqb_refl.
    + destruct (String.eqb_spec k k'); [contradiction | exact IH].
Qed.

Lemma dict_get_set_ne (k k0 : string) (v : pyval) (d : dict) :
  k <> k0 -> dict_get k0 (dict_set k v d) = dict_get k0 d.
Proof.
  intros Hne. induction d as [|[k' v'] d IH]; simpl.
  - destruct (String.eqb_spec k0 k); [congruence | reflexivity].
  - destruct (String.eqb_spec k k') as [->|Hk]; simpl.
    + destruct (String.eqb_spec k0 k'); [congruence | reflexivity].
    + destruct (String.eqb_spec k0 k'); [reflexivity | exact IH].
Qed.

Lemma dict_get_set (k k0 : string) (v : pyval) (d : dict) :
  dict_get k0 (dict_set k v d) = if String.eqb k k0 then Some v else dict_get k0 d.
Proof.
  destruct (String.eqb_spec k k0) as [->|Hne].
  - apply dict_get_set_eq.
  - now apply dict_get_set_ne.
Qed.

Lemma dict_get_without_key (x k : string) (d : dict) :
  dict_get k (without_key x d) = if String.eqb k x then None else dict_get k d.
Proof.
  induction d as [|[k' v'] d IH]; simpl.
  - now destruct (String.eqb k x).
  - destruct (String.eqb_spec k' x) as [->|Hk]; simpl.
    + rewrite IH. destruct (String.eqb_spec k x); reflexivity.
    + rewrite IH. destruct (String.eqb_spec k k') as [->|Hkk]; [|reflexivity].
      destruct (String.eqb_spec k' x); [contradiction | reflexivity].
Qed.

Lemma dict_get_fold_set (k : string) (d acc : dict) :
  dict_get k (fold_left (fun a kv => dict_set (lower (fst kv)) (snd kv) a) d acc) =
  match lookup_ci k d with
  | Some w => Some w
  | None => dict_get k acc
  end.
Proof.
  revert acc. induction d as [|[k' v] d IH]; intros acc; simpl; [reflexivity|].
  rewrite IH. destruct (lookup_ci k d); [reflexivity|].
  rewrite dict_get_set. now destruct (String.eqb (lower k') k).
Qed.

(** The lower-cased copy of a mapping answers for [k] with the last entry
    whose key lower-cases to [k]. *)
Lemma dict_get_lower_keys (k : string) (d : dict) :
  dict_get k (lower_keys d) = lookup_ci k d.
Proof.
  unfold lower_keys. rewrite dict_get_fold_set. now destruct (lookup_ci k d).
Qed.

Lemma lookup_ci_None (k : string) (d : dict) :
  lookup_ci k d = None <-> (forall k', In k' (List.map fst d) -> lower k' <> k).
Proof.
  induction d as [|[k' v] d IH]; simpl.
  - split; [intros _ ? [] | reflexivity].
  - destruct (lookup_ci k d) as [w|].
    + split; [discriminate|]. intros H.
      assert (Some w = None) as E by (apply IH; intros; apply H; now right).
      discriminate E.
    + destruct (String.eqb_spec (lower k') k) as [E|N].
      * split; [discriminate|]. intros H. exfalso. apply (H k'); [now left | exact E].
      * split; [|reflexivity]. intros _ k0 [<-|Hin]; [exact N|].
        now apply IH.
Qed.

Lemma lookup_ci_app (k : string) (d1 d2 : dict) :
  lookup_ci k (d1 ++ d2)%list =
  match lookup_ci k d2 with
  | Some w => Some w
  | None => lookup_ci k d1
  end.
Proof.
  induction d1 as [|[k' v] d1 IH]; simpl.
  - now destruct (lookup_ci k d2).
  - rewrite IH. now destruct (lookup_ci k d2).
Qed.

Lemma lookup_ci_same (k : string) (d1 d2 : dict) :
  same_up_to_case d1 d2 -> lookup_ci k d1 = lookup_ci k d2.
Proof.
  induction 1 as [|[k1 v1] [k2 v2] d1 d2 [Hk Hv] _ IH]; simpl; [reflexivity|].
  simpl in Hk, Hv. now rewrite IH, Hk, Hv.
Qed.

Lemma get_or_lower_keys (k : string) (dflt : pyval) (d : dict) :
  get_or k dflt (lower_keys d) = default dflt (lookup_ci k d).
Proof. unfold get_or. rewrite dict_get_lower_keys. now destruct (lookup_ci k d). Qed.

(** In a well-formed dictionary the value of an entry is the one the
    dictionary gives for its key. *)
Lemma dict_get_entry (k : string) (v : pyval) (d : dict) :
  dict_wf d -> In (k, v) d -> dict_get k d = Some v.
Proof.
  unfold dict_wf. induction d as [|[k' v'] d IH]; simpl; [intros _ []|].
  intros Hnd [[= -> ->] | Hin].
  - now rewrite String.eqb_refl.
  - inversion Hnd as [|? ? Hnotin Hnd']; subst.
    destruct (String.eqb_spec k k') as [->|_]; [|now apply IH].
    exfalso. apply Hnotin. now apply (in_map fst) in Hin.
Qed.

(** ** The store *)

Lemma fresh_unused (s : store) : s !! fresh (dom s) = None.
Proof. apply not_elem_of_dom, is_fresh. Qed.

Lemma deref_alloc (d : dict) (s : store) :
  deref (fst (alloc d s)) (snd (alloc d s)) = d.
Proof. unfold deref, alloc. simpl. now rewrite lookup_insert_eq. Qed.

Lemma alloc_keeps (d : dict) (s : store) (l : loc) :
  is_Some (s !! l) -> snd (alloc d s) !! l = s !! l.
Proof.
  intros [x Hx]. unfold alloc. simpl. apply lookup_insert_ne.
  intros E. rewrite <- E, fresh_unused in Hx. discriminate Hx.
Qed.

(** ** Construction *)

Lemma parse_model_args_spec (d : dict) :
  parse_model_args d =
  let* a := match lookup_ci "act" d with
            | None => Ok "relu"
            | Some v => py_lower v
            end in
  Ok {| ma_width := default (VInt 100) (lookup_ci "width" d);
        ma_depth := default (VInt 4) (lookup_ci "depth" d);
        ma_do := default (VInt 0) (lookup_ci "do" d);
        ma_bn := default (VBool false) (lookup_ci "bn" d);
        ma_act := a;
        ma_res := default (VBool false) (lookup_ci "res" d);
        ma_dense := default (VBool false) (lookup_ci "dense" d) |}.
Proof.
  unfold parse_model_args.
  now rewrite !get_or_lower_keys, dict_get_lower_keys.
Qed.

Lemma resolve_opt_spec (d : dict) :
  resolve_opt d = default (VStr "adam") (lookup_ci "opt" d).
Proof. apply get_or_lower_keys. Qed.

Lemma Construct_unfold (objective : string) (n_in n_out : Z)
    (model_args opt_args : dict) (loss : LossArg)
    (body : BodyBuilder) (lookup_init : InitLookup) (lookup_act : ActLookup)
    (s : store) :
  Construct objective n_in n_out model_args opt_args loss body lookup_init lookup_act s =
  match parse_model_args model_args with
  | Raise e => (Raise e, s)
  | Ok ma =>
      if supported_opt (resolve_opt opt_args) then
        (Ok {| objective := lower objective; n_in := n_in; n_out := n_out;
               body := body; lookup_init := lookup_init; lookup_act := lookup_act;
               loss := parse_loss (lower objective) n_out loss;
               width := ma_width ma; depth := ma_depth ma; do := ma_do ma;
               bn := ma_bn ma; act := ma_act ma; res := ma_res ma;
               dense := ma_dense ma;
               opt := resolve_opt opt_args; opt_args := fresh (dom s) |},
         <[fresh (dom s) := without_key "opt" (lower_keys opt_args)]> s)
      else (Raise (ValueError "Optimiser not currently available"), s)
  end.
Proof.
  unfold Construct, parse_opt_args, resolve_opt, alloc.
  destruct (parse_model_args model_args) as [ma|e]; [|reflexivity].
  now destruct (supported_opt _).
Qed.

(** A builder that [Construct] returns satisfies the invariant, its
    [opt_args] is a new object, and that object holds the lower-cased
    mapping without ["opt"]. *)
Lemma Construct_Ok (obj : string) (nin nout : Z) (margs oargs : dict)
    (l : LossArg) (bd : BodyBuilder) (li : InitLookup) (la : ActLookup)
    (s s' : store) (b : ModelBuilder) :
  Construct obj nin nout margs oargs l bd li la s = (Ok b, s') ->
  builder_inv b s' /\
  s !! opt_args b = None /\
  s' = <[opt_args b := without_key "opt" (lower_keys oargs)]> s /\
  opt b = resolve_opt oargs /\
  loss b = parse_loss (lower obj) nout l /\
  objective b = lower obj /\ n_out b = nout /\ n_in b = nin /\
  body b = bd /\ lookup_init b = li /\ lookup_act b = la /\
  parse_model_args margs =
    Ok {| ma_width := width b; ma_depth := depth b; ma_do := do b;
          ma_bn := bn b; ma_act := act b; ma_res := res b;
          ma_dense := dense b |}.
Proof.
  rewrite Construct_unfold.
  destruct (parse_model_args margs) as [ma|e]; [|discriminate].
  destruct (supported_opt (resolve_opt oargs)) eqn:Hs; [|discriminate].
  intros [= <- <-]. cbn.
  repeat split; try reflexivity.
  - exact Hs.
  - rewrite lookup_insert_eq. now eexists.
  - apply fresh_unused.
  - now destruct ma.
Qed.

Lemma Construct_succeeds (obj : string) (nin nout : Z) (margs oargs : dict)
    (l : LossArg) (bd : BodyBuilder) (li : InitLookup) (la : ActLookup)
    (s : store) (ma : ModelArgs) :
  parse_model_args margs = Ok ma ->
  supported_opt (resolve_opt oargs) = true ->
  exists b s', Construct obj nin nout margs oargs l bd li la s = (Ok b, s').
Proof.
  intros Hm Ho. rewrite Construct_unfold, Hm, Ho. now eexists _, _.
Qed.

Lemma deref_Construct (obj : string) (nin nout : Z) (margs oargs : dict)
    (l : LossArg) (bd : BodyBuilder) (li : InitLookup) (la : ActLookup)
    (s s' : store) (b : ModelBuilder) :
  Construct obj nin nout margs oargs l bd li la s = (Ok b, s') ->
  deref (opt_args b) s' = without_key "opt" (lower_keys oargs).
Proof.
  intros H. apply Construct_Ok in H as (_ & _ & -> & _).
  unfold deref. now rewrite lookup_insert_eq.
Qed.

(** ** Optimizers *)

Lemma build_opt_spec (self : ModelBuilder) (model : Module) (s : store) :
  supported_opt (opt self) = true ->
  build_opt self model s =
  (Some {| opt_class := if eq_str (opt self) "adam" then Adam else SGD;
           opt_model := model;
           opt_kwargs := fresh (dom s) |},
   <[fresh (dom s) := deref (opt_args self) s]> s).
Proof.
  unfold supported_opt, build_opt, alloc. intros H.
  destruct (eq_str (opt self) "adam"); [reflexivity|].
  simpl in H. now rewrite H.
Qed.

Lemma build_opt_inv (self : ModelBuilder) (model : Module) (s : store) :
  builder_inv self s -> builder_inv self (snd (build_opt self model s)).
Proof.
  intros [Hs Hl]. split; [exact Hs|].
  rewrite build_opt_spec by exact Hs. simpl.
  rewrite lookup_insert_ne; [exact Hl|].
  intros E. rewrite <- E, fresh_unused in Hl. now destruct Hl.
Qed.

Lemma set_lr_inv (self : ModelBuilder) (lr : pyval) (s : store) :
  builder_inv self s -> builder_inv self (set_lr self lr s).
Proof.
  intros [Hs [d Hd]]. split; [exact Hs|].
  unfold set_lr. rewrite lookup_alter_eq, Hd. now eexists.
Qed.

Lemma deref_set_lr (self : ModelBuilder) (lr : pyval) (s : store) :
  builder_inv self s ->
  deref (opt_args self) (set_lr self lr s) = dict_set "lr" lr (deref (opt_args self) s).
Proof.
  intros [_ [d Hd]]. unfold deref, set_lr. now rewrite lookup_alter_eq, Hd.
Qed.

Lemma set_lr_other (self : ModelBuilder) (lr : pyval) (s : store) (l : loc) :
  l <> opt_args self -> set_lr self lr s !! l = s !! l.
Proof. intros Hne. unfold set_lr. now apply lookup_alter_ne. Qed.

(** ** Dense blocks *)

(** The layers of a dense block, in order: the linear layer, the
    activation unless it is ["linear"], and, off the output layer, the
    normalization and the dropout. *)
Lemma get_dense_layers (self : ModelBuilder) (fi fo : option pyval)
    (a0 : option string) (last_layer : bool) :
  let fan_in := default (width self) fi in
  let fan_out := default (width self) fo in
  let a := default (act self) a0 in
  get_dense self fi fo a0 last_layer =
  Sequential
    ([Linear fan_in fan_out (lookup_init self a fan_in fan_out).1
                            (lookup_init self a fan_in fan_out).2] ++
     (if negb (String.eqb a "linear") then [Ext (lookup_act self a)] else []) ++
     (if truthy (bn self) && negb last_layer then [BatchNorm1d fan_out] else []) ++
     (if truthy (do self) && negb last_layer then
        if String.eqb a "selu" then [AlphaDropout (do self)] else [Dropout (do self)]
      else []))%list.
Proof.
  unfold get_dense. destruct fi, fo, a0; simpl;
    destruct (lookup_init self _ _ _) as [init args]; simpl;
    repeat case_if; reflexivity.
Qed.

Lemma final_layer_snoc (ls : list Module) (m : Module) :
  final_layer (Sequential (ls ++ [m])) = Some m.
Proof.
  unfold final_layer. simpl. rewrite List.map_app. simpl. apply List.last_last.
Qed.

(** An output block is the linear layer and, unless the activation is
    ["linear"], the activation module. *)
Lemma get_dense_output (self : ModelBuilder) (fi : option pyval) (fo : pyval)
    (a : string) :
  let fan_in := default (width self) fi in
  get_dense self fi (Some fo) (Some a) true =
  Sequential
    (Linear fan_in fo (lookup_init self a fan_in fo).1
                      (lookup_init self a fan_in fo).2 ::
     if String.eqb a "linear" then [] else [Ext (lookup_act self a)]).
Proof.
  cbv zeta. rewrite get_dense_layers. simpl. rewrite !andb_false_r.
  destruct (String.eqb a "linear"); reflexivity.
Qed.

(** The tail is chosen by the objective; its fan-in is the width it is
    given, or the configured width when it is given [None]. *)
Lemma get_tail_spec (self : ModelBuilder) (n : pyval) :
  let a := if contains "class" (objective self) then
             if contains "multi" (objective self) then "logsoftmax" else "sigmoid"
           else "linear" in
  let fan_in := default (width self) (optional n) in
  get_tail self n =
  Sequential
    (Linear fan_in (VInt (n_out self))
       (lookup_init self a fan_in (VInt (n_out self))).1
       (lookup_init self a fan_in (VInt (n_out self))).2 ::
     if String.eqb a "linear" then [] else [Ext (lookup_act self a)]).
Proof.
  unfold get_tail.
  destruct (contains "class" _); [destruct (contains "multi" _)|];
    apply get_dense_output.
Qed.

(** Where the objective decides loss and tail alike: a multi-class
    objective with more than one output, a classification objective that
    is not multi-class, and an objective that is not a classification. *)
Lemma loss_and_tail_by_objective (obj : string) (nin nout : Z)
    (margs oargs : dict) (bd : BodyBuilder) (li : InitLookup) (la : ActLookup)
    (s s' : store) (b : ModelBuilder) (n : pyval) :
  Construct obj nin nout margs oargs Auto bd li la s = (Ok b, s') ->
  (contains "class" (lower obj) = true -> contains "multi" (lower obj) = true ->
   1 < nout ->
   loss b = NLLLoss /\ final_layer (get_tail b n) = Some (Ext (la "logsoftmax"))) /\
  (contains "class" (lower obj) = true -> contains "multi" (lower obj) = false ->
   loss b = BCELoss /\ final_layer (get_tail b n) = Some (Ext (la "sigmoid"))) /\
  (contains "class" (lower obj) = false ->
   loss b = MSELoss /\
   get_tail b n =
     let fan_in := default (width b) (optional n) in
     Sequential [Linear fan_in (VInt nout) (li "linear" fan_in (VInt nout)).1
                                           (li "linear" fan_in (VInt nout)).2]).
Proof.
  intros H. apply Construct_Ok in H
    as (_ & _ & _ & _ & Hl & Ho & Hn & _ & _ & Hli & Hla & _).
  rewrite get_tail_spec, Hl, Ho, Hn, Hli, Hla. unfold parse_loss.
  split; [|split].
  - intros Hc Hm Hlt. rewrite Hc, Hm. apply Z.ltb_lt in Hlt as ->. now split.
  - intros Hc Hm. rewrite Hc, Hm, andb_false_r. now split.
  - intros Hc. rewrite Hc. now split.
Qed.

(** With a multi-class objective and at most one output the loss is the
    binary one, and the tail still ends in log-softmax. *)
Lemma multi_single_output (obj : string) (nin nout : Z)
    (margs oargs : dict) (bd : BodyBuilder) (li : InitLookup) (la : ActLookup)
    (s s' : store) (b : ModelBuilder) (n : pyval) :
  Construct obj nin nout margs oargs Auto bd li la s = (Ok b, s') ->
  contains "class" (lower obj) = true -> contains "multi" (lower obj) = true ->
  nout <= 1 ->
  loss b = BCELoss /\ final_layer (get_tail b n) = Some (Ext (la "logsoftmax")).
Proof.
  intros H Hc Hm Hn. apply Construct_Ok in H
    as (_ & _ & _ & _ & Hl & Ho & _ & _ & _ & _ & Hla & _).
  rewrite get_tail_spec, Hl, Ho, Hla. unfold parse_loss. rewrite Hc, Hm.
  split; [|reflexivity].
  now apply Z.ltb_ge in Hn as ->.
Qed.

(** C1. The claim pairs, for a multi-class objective with a single output,
    the binary cross-entropy loss with a sigmoid tail.  On the objective
    "multiclass" with [n_out = 1] and loss left as 'auto', construction
    resolves the binary cross-entropy loss, and the model that
    [build_model] returns has a tail whose last layer is the log-softmax
    activation, which is not the sigmoid one. *)
Theorem multiclass_single_output_tail :
  exists b s head bd tail,
    Construct "multiclass" 10 1 [] [] Auto stub_body stub_init stub_act ∅ = (Ok b, s) /\
    loss b = BCELoss /\
    build_model b = Ok (Sequential [head; bd; tail]) /\
    tail = get_tail b (VInt 100) /\
    final_layer tail = Some (Ext (stub_act "logsoftmax")) /\
    final_layer tail <> Some (Ext (stub_act "sigmoid")).
Proof.
  eexists _, _, _, _, _.
  split; [vm_compute; reflexivity|].
  repeat split; try reflexivity.
  vm_compute. discriminate.
Qed.

(** ** Construction: the optimizer kind *)

(** C2. When the optimizer kind resolved from opt_config (key "opt",
    default "adam") is not "adam" or "sgd", Construct raises and returns no
    builder and leaves the store as it was; the exception is the
    ValueError of [parse_opt_args] whenever model_config itself is read
    without error. *)
Theorem Construct_rejects_unsupported_opt (obj : string) (nin nout : Z)
    (margs oargs : dict) (l : LossArg)
    (bd : BodyBuilder) (li : InitLookup) (la : ActLookup) (s : store) :
  supported_opt (resolve_opt oargs) = false ->
  (exists e, Construct obj nin nout margs oargs l bd li la s = (Raise e, s)) /\
  (forall ma, parse_model_args margs = Ok ma ->
     Construct obj nin nout margs oargs l bd li la s =
     (Raise (ValueError "Optimiser not currently available"), s)).
Proof.
  intros Hs. rewrite Construct_unfold, Hs. split.
  - destruct (parse_model_args margs); now eexists.
  - now intros ma ->.
Qed.

Lemma Construct_rejects_unsupported_opt_witness :
  supported_opt (resolve_opt [("opt", VStr "rmsprop")]) = false /\
  Construct "regression" 4 1 [] [("opt", VStr "rmsprop")] Auto
    stub_body stub_init stub_act ∅ =
  (Raise (ValueError "Optimiser not currently available"), ∅).
Proof.
  split; [reflexivity|].
  eapply (proj2 (Construct_rejects_unsupported_opt "regression" 4 1 []
                   [("opt", VStr "rmsprop")] Auto stub_body stub_init stub_act ∅
                   eq_refl)).
  reflexivity.
Defined.

(** ** Construction: the model configuration *)

Lemma lookup_ci_unrecognized (d : dict) (k : string) :
  (forall k', In k' (List.map fst d) -> ~ In (lower k') recognized) ->
  In k recognized -> lookup_ci k d = None.
Proof.
  intros H Hk. apply lookup_ci_None. intros k' Hin E.
  apply (H k' Hin). now rewrite E.
Qed.

Lemma parse_model_args_defaults (d : dict) :
  (forall k, In k (List.map fst d) -> ~ In (lower k) recognized) ->
  parse_model_args d = Ok default_model_args.
Proof.
  intros H. rewrite parse_model_args_spec.
  rewrite !(lookup_ci_unrecognized d _ H) by (simpl; tauto).
  reflexivity.
Qed.

(** C3. When no key of model_config is, case aside, one of width, depth,
    do, bn, act, res, dense, the mapping is read without error as
    width 100, depth 4, dropout 0, batch-normalization false, activation
    "relu" (and res, dense false); a builder constructed from it has these
    attributes, and its build_model is the head [n_in -> 100] with the ReLU
    activation and neither normalization nor dropout, the body built for
    depth 3, width 100, dropout 0, no normalization, "relu", and the tail
    on the body's output width. *)
Theorem defaults_when_keys_omitted (obj : string) (nin nout : Z)
    (margs oargs : dict) (l : LossArg)
    (bd : BodyBuilder) (li : InitLookup) (la : ActLookup) (s : store) :
  (forall k, In k (List.map fst margs) -> ~ In (lower k) recognized) ->
  parse_model_args margs = Ok default_model_args /\
  forall b s',
    Construct obj nin nout margs oargs l bd li la s = (Ok b, s') ->
    width b = VInt 100 /\ depth b = VInt 4 /\ do b = VInt 0 /\
    bn b = VBool false /\ act b = "relu" /\
    res b = VBool false /\ dense b = VBool false /\
    build_model b =
      let B := bd (VInt 3) (VInt 100) (VInt 0) (VBool false) "relu"
                  (VBool false) (VBool false) in
      let* n := body_out_size B in
      Ok (Sequential
            [Sequential [Linear (VInt nin) (VInt 100)
                           (li "relu" (VInt nin) (VInt 100)).1
                           (li "relu" (VInt nin) (VInt 100)).2;
                         Ext (la "relu")];
             Ext B;
             get_tail b n]).
Proof.
  intros H. pose proof (parse_model_args_defaults margs H) as Hd.
  split; [exact Hd|]. intros b s' Hc.
  apply Construct_Ok in Hc
    as (_ & _ & _ & _ & _ & _ & _ & Hn & Hb & Hli & Hla & Hm).
  rewrite Hd in Hm. injection Hm as Hw Hdp Hdo Hbn Ha Hr Hde.
  repeat (split; [congruence|]).
  unfold build_model, get_head, get_body.
  rewrite get_dense_layers.
  rewrite <- Hw, <- Hdp, <- Hdo, <- Hbn, <- Ha, <- Hr, <- Hde, Hn, Hb, Hli, Hla.
  reflexivity.
Qed.

Lemma defaults_when_keys_omitted_witness :
  (forall k, In k (List.map fst [("Colour", VStr "red")]) ->
             ~ In (lower k) recognized) /\
  exists b s,
    Construct "regression" 8 1 [("Colour", VStr "red")] [] Auto
      stub_body stub_init stub_act ∅ = (Ok b, s) /\
    width b = VInt 100 /\ depth b = VInt 4 /\ do b = VInt 0 /\
    bn b = VBool false /\ act b = "relu" /\
    build_model b =
      Ok (Sequential
            [Sequential [Linear (VInt 8) (VInt 100) (VObj "relu") [];
                         Ext (stub_act "relu")];
             Ext (stub_body (VInt 3) (VInt 100) (VInt 0) (VBool false) "relu"
                    (VBool false) (VBool false));
             Sequential [Linear (VInt 100) (VInt 1) (VObj "linear") []]]).
Proof.
  assert (forall k, In k (List.map fst [("Colour", VStr "red")]) ->
                    ~ In (lower k) recognized) as H.
  { intros k [<-|[]]. vm_compute. intuition discriminate. }
  split; [exact H|].
  eexists _, _. split; [vm_compute; reflexivity|].
  destruct (proj2 (defaults_when_keys_omitted "regression" 8 1
                     [("Colour", VStr "red")] [] Auto stub_body stub_init stub_act ∅ H)
                  _ _ eq_refl)
    as (Hw & Hdp & Hdo & Hbn & Ha & _ & _ & Hm).
  repeat (split; [assumption|]).
  exact (eq_trans Hm eq_refl).
Defined.

(** ** Construction: the loss *)

(** C5. With a loss other than the 'auto' constant, the loss resolved by
    Construct is that very value, whatever the objective and n_out; and
    Construct does return a builder whenever model_config is read without
    error and the optimizer kind is supported. *)
Theorem explicit_loss_kept (obj : string) (nin nout : Z)
    (margs oargs : dict) (v : pyval)
    (bd : BodyBuilder) (li : InitLookup) (la : ActLookup) (s : store) :
  parse_loss (lower obj) nout (Given v) = v /\
  (forall b s',
     Construct obj nin nout margs oargs (Given v) bd li la s = (Ok b, s') ->
     loss b = v) /\
  (forall ma,
     parse_model_args margs = Ok ma ->
     supported_opt (resolve_opt oargs) = true ->
     exists b s',
       Construct obj nin nout margs oargs (Given v) bd li la s = (Ok b, s') /\
       loss b = v).
Proof.
  split; [reflexivity|]. split.
  - intros b s' H. now apply Construct_Ok in H as (_ & _ & _ & _ & -> & _).
  - intros ma Hm Ho.
    destruct (Construct_succeeds obj nin nout margs oargs (Given v) bd li la s ma Hm Ho)
      as (b & s' & H).
    exists b, s'. split; [exact H|].
    now apply Construct_Ok in H as (_ & _ & _ & _ & -> & _).
Qed.

Lemma explicit_loss_kept_witness :
  exists b s,
    Construct "MultiClass" 8 5 [] [] (Given MSELoss)
      stub_body stub_init stub_act ∅ = (Ok b, s) /\
    loss b = MSELoss.
Proof.
  exact (proj2 (proj2 (explicit_loss_kept "MultiClass" 8 5 [] [] MSELoss
                         stub_body stub_init stub_act ∅))
               default_model_args eq_refl eq_refl).
Defined.

(** ** Forwarding of the optimizer's hyperparameters *)

(** A key in lower case that no other key of the mapping lower-cases to is
    found under its own name. *)
Lemma lookup_ci_verbatim (k : string) (v : pyval) (d : dict) :
  dict_wf d -> In (k, v) d -> lower k = k ->
  (forall k', In k' (List.map fst d) -> lower k' = k -> k' = k) ->
  lookup_ci k d = Some v.
Proof.
  unfold dict_wf. induction d as [|[k1 v1] d IH]; simpl; [intros _ []|].
  intros Hnd Hin Hk Hu. inversion Hnd as [|? ? Hnotin Hnd']; subst.
  destruct Hin as [[= -> ->] | Hin].
  - assert (lookup_ci k d = None) as ->.
    { apply lookup_ci_None. intros k' Hk' E. apply Hnotin.
      rewrite <- (Hu k'); [exact Hk' | now right | exact E]. }
    rewrite Hk. now rewrite String.eqb_refl.
  - rewrite IH; auto.
Qed.

(** C4, as amended.  The keyword arguments the optimizer is built with are
    the opt_config entries under their lower-cased keys, "opt" left out:
    a name [k] is passed exactly when [k] is not "opt" and some key
    lower-cases to [k], and its value is that of the last such key.  So a
    key already in lower case, other than "opt", that no other key
    lower-cases to is forwarded verbatim. *)
Theorem opt_args_forwarded_lower_cased (obj : string) (nin nout : Z)
    (margs oargs : dict) (l : LossArg)
    (bd : BodyBuilder) (li : InitLookup) (la : ActLookup)
    (s s' : store) (b : ModelBuilder) (model : Module) :
  Construct obj nin nout margs oargs l bd li la s = (Ok b, s') ->
  exists o s'',
    build_opt b model s' = (Some o, s'') /\
    (forall k, dict_get k (deref (opt_kwargs o) s'') =
               if String.eqb k "opt" then None else lookup_ci k oargs) /\
    (forall k v,
       dict_wf oargs -> In (k, v) oargs -> lower k = k -> k <> "opt" ->
       (forall k', In k' (List.map fst oargs) -> lower k' = k -> k' = k) ->
       dict_get k (deref (opt_kwargs o) s'') = Some v).
Proof.
  intros H. pose proof (deref_Construct _ _ _ _ _ _ _ _ _ _ _ _ H) as Hd.
  apply Construct_Ok in H as ([Hs _] & _).
  rewrite (build_opt_spec b model s' Hs). eexists _, _. split; [reflexivity|].
  assert (forall k, dict_get k (deref (fresh (dom s'))
                       (<[fresh (dom s') := deref (opt_args b) s']> s')) =
                    if String.eqb k "opt" then None else lookup_ci k oargs) as Hk.
  { intros k. unfold deref at 1. rewrite lookup_insert_eq. simpl.
    now rewrite Hd, dict_get_without_key, dict_get_lower_keys. }
  split; [exact Hk|].
  intros k v Hwf Hin Hlow Hne Hu. simpl. rewrite Hk.
  destruct (String.eqb_spec k "opt"); [contradiction|].
  now apply lookup_ci_verbatim.
Qed.

Lemma opt_args_forwarded_lower_cased_witness :
  exists b s o s',
    Construct "regression" 4 1 [] [("LR", VInt 1); ("momentum", VInt 0)] Auto
      stub_body stub_init stub_act ∅ = (Ok b, s) /\
    build_opt b (Sequential []) s = (Some o, s') /\
    dict_get "lr" (deref (opt_kwargs o) s') = Some (VInt 1) /\
    dict_get "momentum" (deref (opt_kwargs o) s') = Some (VInt 0).
Proof.
  eexists _, _.
  destruct (opt_args_forwarded_lower_cased "regression" 4 1 []
              [("LR", VInt 1); ("momentum", VInt 0)] Auto
              stub_body stub_init stub_act ∅ _ _ (Sequential []) eq_refl)
    as (o & s' & Ho & Hk & Hv).
  exists o, s'. split; [reflexivity|]. split; [exact Ho|].
  split; [exact (Hk "lr")|].
  apply Hv.
  - repeat constructor; simpl; intuition discriminate.
  - right. now left.
  - reflexivity.
  - discriminate.
  - intros k' [<-|[<-|[]]]; [discriminate | reflexivity].
Defined.

(** C4, as stated, fails: the key "LR" of opt_config reaches the optimizer
    as "lr", and no hyperparameter named "LR" is passed. *)
Lemma upper_case_key_not_forwarded_verbatim :
  exists b s o s',
    Construct "regression" 4 1 [] [("LR", VInt 1)] Auto
      stub_body stub_init stub_act ∅ = (Ok b, s) /\
    build_opt b (Sequential []) s = (Some o, s') /\
    deref (opt_kwargs o) s' = [("lr", VInt 1)] /\
    dict_get "LR" (deref (opt_kwargs o) s') = None.
Proof.
  eexists _, _, _, _.
  split; [vm_compute; reflexivity|].
  split; [vm_compute; reflexivity|].
  split; vm_compute; reflexivity.
Qed.

(** [get_model] is [build_model], then [build_opt] on its model, with the
    resolved loss. *)
Lemma get_model_spec (self : ModelBuilder) (s : store) (model : Module) :
  supported_opt (opt self) = true ->
  build_model self = Ok model ->
  exists o s',
    build_opt self model s = (Some o, s') /\
    get_model self s = (Ok (model, Some o, loss self), s').
Proof.
  intros Hs Hm. unfold get_model. rewrite Hm, (build_opt_spec self model s Hs).
  now eexists _, _.
Qed.

(** ** Setting the learning rate *)

(** C6. On a builder whose invariant holds (as it does after Construct and
    after every later call of set_lr and build_opt), set_lr(lr) followed by
    build_opt returns an optimizer whose keyword arguments give lr for
    "lr", whatever "lr" was before; and an optimizer that build_opt has
    returned keeps its keyword arguments through a later set_lr. *)
Theorem set_lr_then_build_opt (self : ModelBuilder) (lr : pyval)
    (model : Module) (s : store) :
  builder_inv self s ->
  (exists o s',
     build_opt self model (set_lr self lr s) = (Some o, s') /\
     dict_get "lr" (deref (opt_kwargs o) s') = Some lr) /\
  (forall o s1,
     build_opt self model s = (Some o, s1) ->
     opt_kwargs o <> opt_args self /\
     deref (opt_kwargs o) (set_lr self lr s1) = deref (opt_kwargs o) s1 /\
     deref (opt_kwargs o) s1 = deref (opt_args self) s).
Proof.
  intros Hinv. split.
  - pose proof (set_lr_inv self lr s Hinv) as [Hs _].
    rewrite (build_opt_spec self model _ Hs). eexists _, _. split; [reflexivity|].
    simpl. unfold deref at 1. rewrite lookup_insert_eq. simpl.
    rewrite (deref_set_lr self lr s Hinv). apply dict_get_set_eq.
  - destruct Hinv as [Hs [d Hd]]. rewrite (build_opt_spec self model s Hs).
    intros o s1 [= <- <-]. simpl.
    assert (fresh (dom s) <> opt_args self) as Hne.
    { intros E. rewrite <- E, fresh_unused in Hd. discriminate Hd. }
    split; [exact Hne|]. split.
    + unfold deref. now rewrite set_lr_other.
    + unfold deref at 1. now rewrite lookup_insert_eq.
Qed.

Lemma set_lr_then_build_opt_witness :
  exists b s o0 s0 o s',
    Construct "regression" 4 1 [] [("lr", VInt 3)] Auto
      stub_body stub_init stub_act ∅ = (Ok b, s) /\
    builder_inv b s /\
    build_opt b (Sequential []) s = (Some o0, s0) /\
    deref (opt_kwargs o0) (set_lr b (VInt 7) s0) = [("lr", VInt 3)] /\
    build_opt b (Sequential []) (set_lr b (VInt 7) s) = (Some o, s') /\
    dict_get "lr" (deref (opt_kwargs o) s') = Some (VInt 7).
Proof.
  eexists _, _, _, _.
  assert (builder_inv _ _) as Hinv
    by exact (proj1 (Construct_Ok "regression" 4 1 [] [("lr", VInt 3)] Auto
                       stub_body stub_init stub_act ∅ _ _ eq_refl)).
  destruct (set_lr_then_build_opt _ (VInt 7) (Sequential []) _ Hinv)
    as [(o & s' & Ho & Hlr) Hkeep].
  destruct (Hkeep _ _ eq_refl) as (_ & Hsame & _).
  exists o, s'. split; [reflexivity|]. split; [exact Hinv|].
  split; [reflexivity|]. split; [exact (eq_trans Hsame eq_refl)|].
  split; [exact Ho | exact Hlr].
Defined.

(** ** Dropout in a dense block *)

Lemma truthy_rate (v : pyval) :
  match v with
  | VInt n => truthy v = true <-> n <> 0
  | VFloat f => truthy v = true <-> forall sg, f <> S754_zero sg
  | _ => True
  end.
Proof.
  destruct v as [| | n | f | | |]; simpl; try exact I.
  - rewrite negb_true_iff, Z.eqb_neq. reflexivity.
  - destruct f; split; try congruence; try discriminate.
    intros H. now destruct (H s).
Qed.

(** C7. In a dense block that is not the output layer and whose dropout
    rate is nonzero (it passes the test [if self.do]), the last layer is
    AlphaDropout and no layer is Dropout when the activation is "selu", and
    the last layer is Dropout and no layer is AlphaDropout when the
    activation is anything else. *)
Theorem dropout_variant (self : ModelBuilder) (fi fo : option pyval)
    (a0 : option string) :
  truthy (do self) = true ->
  let a := default (act self) a0 in
  let block := get_dense self fi fo a0 false in
  (a = "selu" ->
     final_layer block = Some (AlphaDropout (do self)) /\
     In (AlphaDropout (do self)) (layers_of block) /\
     forall p, ~ In (Dropout p) (layers_of block)) /\
  (a <> "selu" ->
     final_layer block = Some (Dropout (do self)) /\
     In (Dropout (do self)) (layers_of block) /\
     forall p, ~ In (AlphaDropout p) (layers_of block)).
Proof.
  intros Hdo a block. subst block. rewrite get_dense_layers. fold a.
  rewrite Hdo. cbn [andb negb].
  split; intros Ha.
  - assert (String.eqb a "selu" = true) as -> by now apply String.eqb_eq.
    split; [|split].
    + rewrite !app_assoc. apply final_layer_snoc.
    + cbn [layers_of]. rewrite !in_app_iff. right. right. right. now left.
    + intros p. cbn [layers_of]. rewrite !in_app_iff.
      repeat case_if; simpl; intuition discriminate.
  - assert (String.eqb a "selu" = false) as -> by now apply String.eqb_neq.
    split; [|split].
    + rewrite !app_assoc. apply final_layer_snoc.
    + cbn [layers_of]. rewrite !in_app_iff. right. right. right. now left.
    + intros p. cbn [layers_of]. rewrite !in_app_iff.
      repeat case_if; simpl; intuition discriminate.
Qed.

Lemma dropout_variant_witness :
  exists b s,
    Construct "regression" 4 1
      [("act", VStr "SELU"); ("do", VFloat (S754_finite false 4503599627370496 (-53)))]
      [] Auto stub_body stub_init stub_act ∅ = (Ok b, s) /\
    truthy (do b) = true /\
    final_layer (get_dense b None None None false) = Some (AlphaDropout (do b)) /\
    final_layer (get_dense b None None (Some "tanh") false) = Some (Dropout (do b)).
Proof.
  eexists _, _. split; [vm_compute; reflexivity|].
  match goal with
  | |- truthy (do ?b) = true /\ _ =>
      pose proof (dropout_variant b None None None eq_refl) as [Hselu _];
      pose proof (dropout_variant b None None (Some "tanh") eq_refl) as [_ Hother]
  end.
  split; [reflexivity|]. split.
  - exact (proj1 (Hselu eq_refl)).
  - apply Hother. discriminate.
Defined.

(** ** The keys of the model configuration *)

Lemma lookup_ci_skip (k k0 : string) (v : pyval) (d1 d2 : dict) :
  lower k0 <> k ->
  lookup_ci k (d1 ++ (k0, v) :: d2)%list = lookup_ci k (d1 ++ d2)%list.
Proof.
  intros Hne. rewrite !lookup_ci_app. simpl.
  destruct (lookup_ci k d2); [reflexivity|].
  destruct (String.eqb_spec (lower k0) k); [contradiction|].
  induction d1 as [|[k1 v1] d1 IH]; simpl; [reflexivity|].
  now destruct (lookup_ci k d1).
Qed.

(** The last entry whose key lower-cases to [k] is the one found. *)
Lemma lookup_ci_last (k k' : string) (v : pyval) (d1 d2 : dict) :
  lower k' = k -> missing k d2 ->
  lookup_ci k (d1 ++ (k', v) :: d2)%list = Some v.
Proof.
  intros Hk Hm. rewrite lookup_ci_app. simpl.
  apply lookup_ci_None in Hm. rewrite Hm.
  destruct (String.eqb_spec (lower k') k); [reflexivity | contradiction].
Qed.

Lemma parse_model_args_Raise (d : dict) (e : exn) :
  parse_model_args d = Raise e -> e = AttributeError /\ act_not_str d.
Proof.
  rewrite parse_model_args_spec. unfold act_not_str.
  destruct (lookup_ci "act" d) as [v|]; [|discriminate].
  destruct v; simpl; try discriminate;
    (intros [= <-]; split; [reflexivity|]; eexists; split; [reflexivity|];
     intros a; discriminate).
Qed.

Lemma parse_model_args_Ok (d : dict) :
  missing "act" d \/ (exists a, lookup_ci "act" d = Some (VStr a)) ->
  exists ma, parse_model_args d = Ok ma.
Proof.
  rewrite parse_model_args_spec.
  intros [Hm | [a Ha]].
  - apply lookup_ci_None in Hm. rewrite Hm. now eexists.
  - rewrite Ha. now eexists.
Qed.

(** C8. The keys of model_config are matched without regard to case: two
    mappings equal up to the case of their keys are read alike, and an
    entry whose key is a recognized one in any case is read (the last such
    entry for a key gives the attribute its value, "act" in lower case).  A
    key that is, case aside, none of the recognized ones changes nothing.  A
    recognized key that is missing gets its default.  The mapping is read
    without error unless the value given for "act" is not a string, so no
    unknown or missing key makes Construct raise: when Construct raises, it
    is for such an "act" value or for an unsupported optimizer kind. *)
Theorem model_config_keys :
  (forall d1 d2, same_up_to_case d1 d2 -> parse_model_args d1 = parse_model_args d2) /\
  (forall d1 d2 k v ma,
     missing (lower k) d2 ->
     parse_model_args (d1 ++ (k, v) :: d2)%list = Ok ma ->
     (lower k = "width" -> ma_width ma = v) /\
     (lower k = "depth" -> ma_depth ma = v) /\
     (lower k = "do" -> ma_do ma = v) /\
     (lower k = "bn" -> ma_bn ma = v) /\
     (lower k = "act" -> exists a, v = VStr a /\ ma_act ma = lower a) /\
     (lower k = "res" -> ma_res ma = v) /\
     (lower k = "dense" -> ma_dense ma = v)) /\
  (forall d1 d2 k v,
     ~ In (lower k) recognized ->
     parse_model_args (d1 ++ (k, v) :: d2)%list = parse_model_args (d1 ++ d2)%list) /\
  (forall d,
     missing "act" d \/ (exists a, lookup_ci "act" d = Some (VStr a)) ->
     exists ma,
       parse_model_args d = Ok ma /\
       (missing "width" d -> ma_width ma = VInt 100) /\
       (missing "depth" d -> ma_depth ma = VInt 4) /\
       (missing "do" d -> ma_do ma = VInt 0) /\
       (missing "bn" d -> ma_bn ma = VBool false) /\
       (missing "act" d -> ma_act ma = "relu") /\
       (missing "res" d -> ma_res ma = VBool false) /\
       (missing "dense" d -> ma_dense ma = VBool false)) /\
  (forall obj nin nout margs oargs l bd li la s e s',
     Construct obj nin nout margs oargs l bd li la s = (Raise e, s') ->
     (e = AttributeError /\ act_not_str margs) \/
     (e = ValueError "Optimiser not currently available" /\
      supported_opt (resolve_opt oargs) = false)).
Proof.
  split; [|split; [|split; [|split]]].
  - intros d1 d2 H. rewrite !parse_model_args_spec.
    now rewrite !(lookup_ci_same _ d1 d2 H).
  - intros d1 d2 k v ma Hm H. rewrite parse_model_args_spec in H.
    destruct (match lookup_ci "act" (d1 ++ (k, v) :: d2)%list with
              | Some v => py_lower v
              | None => Ok "relu"
              end) as [a|] eqn:Ha; [|discriminate].
    injection H as <-. cbn.
    repeat split; intros Hk; rewrite Hk in Hm;
      try (now rewrite (lookup_ci_last _ k v d1 d2 Hk Hm)).
    rewrite (lookup_ci_last _ k v d1 d2 Hk Hm) in Ha.
    destruct v; simpl in Ha; try discriminate. injection Ha as <-. now eexists.
  - intros d1 d2 k v Hk. rewrite !parse_model_args_spec.
    rewrite !(lookup_ci_skip _ k v d1 d2); [reflexivity|..];
      intros E; apply Hk; rewrite E; simpl; tauto.
  - intros d Hact. destruct (parse_model_args_Ok d Hact) as [ma Hma].
    exists ma. split; [exact Hma|].
    rewrite parse_model_args_spec in Hma.
    destruct (match lookup_ci "act" d with
              | Some v => py_lower v
              | None => Ok "relu"
              end) as [a|] eqn:Ha; [|discriminate].
    injection Hma as <-. cbn.
    repeat split; intros Hm; apply lookup_ci_None in Hm; rewrite Hm in *;
      try reflexivity.
    now injection Ha.
  - intros obj nin nout margs oargs l bd li la s e s'.
    rewrite Construct_unfold.
    destruct (parse_model_args margs) as [ma|e0] eqn:Hm.
    + destruct (supported_opt (resolve_opt oargs)) eqn:Hs; [discriminate|].
      intros [= <- _]. now right.
    + intros [= <- _]. left. now apply parse_model_args_Raise.
Qed.

Lemma model_config_keys_witness :
  parse_model_args [("WIDTH", VInt 32); ("Act", VStr "SELU")] =
    parse_model_args [("width", VInt 32); ("act", VStr "SELU")] /\
  (exists ma,
     parse_model_args [("WIDTH", VInt 32); ("Act", VStr "SELU")] = Ok ma /\
     ma_width ma = VInt 32 /\ ma_act ma = "selu") /\
  parse_model_args [("WIDTH", VInt 32); ("colour", VNone); ("Act", VStr "SELU")] =
    parse_model_args [("WIDTH", VInt 32); ("Act", VStr "SELU")] /\
  (exists ma,
     parse_model_args [("WIDTH", VInt 32); ("Act", VStr "SELU")] = Ok ma /\
     ma_depth ma = VInt 4 /\ ma_do ma = VInt 0) /\
  act_not_str [("act", VInt 3)].
Proof.
  destruct model_config_keys as (Hcase & Hread & Hskip & Hdflt & Hraise).
  split; [|split; [|split; [|split]]].
  - apply Hcase. repeat constructor.
  - eexists. split; [vm_compute; reflexivity|]. split.
    + refine (proj1 (Hread [] [("Act", VStr "SELU")] "WIDTH" (VInt 32) _ _ eq_refl)
                eq_refl).
      intros k' [<-|[]]. discriminate.
    + destruct (Hread [("WIDTH", VInt 32)] [] "Act" (VStr "SELU") _
                  (fun _ (H : False) => match H with end) eq_refl)
        as (_ & _ & _ & _ & Hact & _).
      destruct (Hact eq_refl) as (a & [= <-] & Ha). exact Ha.
  - apply (Hskip [("WIDTH", VInt 32)] [("Act", VStr "SELU")] "colour" VNone).
    vm_compute. intuition discriminate.
  - destruct (Hdflt [("WIDTH", VInt 32); ("Act", VStr "SELU")]) as (ma & Hma & H).
    { right. now exists "SELU". }
    exists ma. split; [exact Hma|].
    destruct H as (_ & Hdp & Hdo & _).
    split; [apply Hdp | apply Hdo];
      intros k [<-|[<-|[]]]; vm_compute; discriminate.
  - destruct (Hraise "regression" 4 1 [("act", VInt 3)] [] Auto
                stub_body stub_init stub_act ∅ AttributeError ∅ eq_refl)
      as [[_ H] | [H _]]; [exact H | discriminate H].
Defined.

(** ** The optimizer kind of a builder *)

(** C9. A builder that Construct returns has optimizer kind "adam" or "sgd",
    and so build_opt, for every model and in every store, returns an
    optimizer of the class of that kind over the model: it never falls
    through. *)
Theorem build_opt_returns_optimizer (obj : string) (nin nout : Z)
    (margs oargs : dict) (l : LossArg)
    (bd : BodyBuilder) (li : InitLookup) (la : ActLookup)
    (s s' : store) (b : ModelBuilder) :
  Construct obj nin nout margs oargs l bd li la s = (Ok b, s') ->
  (opt b = VStr "adam" \/ opt b = VStr "sgd") /\
  forall model s1,
    exists o s2,
      build_opt b model s1 = (Some o, s2) /\
      opt_model o = model /\
      opt_class o = (if eq_str (opt b) "adam" then Adam else SGD).
Proof.
  intros H. apply Construct_Ok in H as ([Hs _] & _).
  split; [now apply supported_opt_true|].
  intros model s1. rewrite (build_opt_spec b model s1 Hs).
  now eexists _, _.
Qed.

Lemma build_opt_returns_optimizer_witness :
  exists b s o s',
    Construct "regression" 4 1 [] [("opt", VStr "sgd"); ("momentum", VInt 0)] Auto
      stub_body stub_init stub_act ∅ = (Ok b, s) /\
    opt b = VStr "sgd" /\
    build_opt b (Sequential []) s = (Some o, s') /\
    opt_class o = SGD.
Proof.
  eexists _, _.
  destruct (build_opt_returns_optimizer "regression" 4 1 []
              [("opt", VStr "sgd"); ("momentum", VInt 0)] Auto
              stub_body stub_init stub_act ∅ _ _ eq_refl) as [_ H].
  match goal with
  | |- exists o s', _ /\ _ /\ build_opt _ _ ?s1 = _ /\ _ =>
      destruct (H (Sequential []) s1) as (o & s' & Ho & _ & Hc)
  end.
  exists o, s'. split; [reflexivity|]. split; [reflexivity|].
  split; [exact Ho | exact Hc].
Defined.

(** C10. The key "opt" is found whatever its case, while its value is
    compared as it is spelled.  With a model_config that is read without
    error: when the entry of opt_config for "opt", case of the key aside, is
    "adam", Construct returns a builder of kind "adam" (so with
    {"OPT": "adam"}); when it is a string that is not all in lower case,
    Construct raises the unsupported-optimizer ValueError (so with
    {"opt": "Adam"}). *)
Theorem opt_kind_case_sensitive (obj : string) (nin nout : Z)
    (margs oargs : dict) (l : LossArg)
    (bd : BodyBuilder) (li : InitLookup) (la : ActLookup) (s : store)
    (ma : ModelArgs) :
  parse_model_args margs = Ok ma ->
  (lookup_ci "opt" oargs = Some (VStr "adam") ->
   exists b s',
     Construct obj nin nout margs oargs l bd li la s = (Ok b, s') /\
     opt b = VStr "adam") /\
  (forall kind,
     lookup_ci "opt" oargs = Some (VStr kind) -> lower kind <> kind ->
     Construct obj nin nout margs oargs l bd li la s =
     (Raise (ValueError "Optimiser not currently available"), s)).
Proof.
  intros Hm. split.
  - intros Ho.
    assert (resolve_opt oargs = VStr "adam") as Hr
      by now rewrite resolve_opt_spec, Ho.
    rewrite Construct_unfold, Hm, Hr. now eexists _, _.
  - intros kind Ho Hk.
    assert (resolve_opt oargs = VStr kind) as Hr
      by now rewrite resolve_opt_spec, Ho.
    rewrite Construct_unfold, Hm, Hr.
    destruct (supported_opt (VStr kind)) eqn:Hs; [|reflexivity].
    now apply supported_opt_lower in Hs.
Qed.

Lemma opt_kind_case_sensitive_witness :
  (exists b s,
     Construct "regression" 4 1 [] [("OPT", VStr "adam")] Auto
       stub_body stub_init stub_act ∅ = (Ok b, s) /\
     opt b = VStr "adam") /\
  Construct "regression" 4 1 [] [("opt", VStr "Adam")] Auto
    stub_body stub_init stub_act ∅ =
  (Raise (ValueError "Optimiser not currently available"), ∅).
Proof.
  split.
  - exact (proj1 (opt_kind_case_sensitive "regression" 4 1 []
                    [("OPT", VStr "adam")] Auto stub_body stub_init stub_act ∅
                    default_model_args eq_refl) eq_refl).
  - refine (proj2 (opt_kind_case_sensitive "regression" 4 1 []
                     [("opt", VStr "Adam")] Auto stub_body stub_init stub_act ∅
                     default_model_args eq_refl) "Adam" eq_refl _).
    discriminate.
Defined.

(** * Further properties of the builder *)

(** ** The lower-cased copy of a mapping *)

Lemma dict_set_keys (k : string) (v : pyval) (d : dict) :
  List.map fst (dict_set k v d) =
  if dict_mem k d then List.map fst d else (List.map fst d ++ [k])%list.
Proof.
  unfold dict_mem. induction d as [|[k' v'] d IH]; simpl; [reflexivity|].
  destruct (String.eqb_spec k k') as [->|Hne]; simpl; [reflexivity|].
  rewrite IH. now destruct (dict_get k d).
Qed.

Lemma dict_mem_In (k : string) (d : dict) :
  dict_mem k d = true <-> In k (List.map fst d).
Proof.
  unfold dict_mem. induction d as [|[k' v'] d IH]; simpl.
  - split; [discriminate | intros []].
  - destruct (String.eqb_spec k k') as [->|Hne].
    + split; [now left | reflexivity].
    + rewrite IH. split; [now right | intros [E|H]; [congruence | exact H]].
Qed.

Lemma dict_set_wf (k : string) (v : pyval) (d : dict) :
  dict_wf d -> dict_wf (dict_set k v d).
Proof.
  unfold dict_wf. intros H. rewrite dict_set_keys.
  destruct (dict_mem k d) eqn:Hm; [exact H|].
  apply List.NoDup_app; [exact H | repeat constructor; intros [] |].
  intros x Hx [<-|[]]. apply dict_mem_In in Hx. congruence.
Qed.

Lemma dict_set_keys_lower (k : string) (v : pyval) (d : dict) :
  lower k = k -> keys_lower d -> keys_lower (dict_set k v d).
Proof.
  unfold keys_lower. intros Hk. induction 1 as [|[k' v'] d Hx Hd IH]; simpl.
  - repeat constructor. exact Hk.
  - destruct (String.eqb k k'); constructor; assumption.
Qed.

Lemma dict_set_set (k : string) (v1 v2 : pyval) (d : dict) :
  dict_set k v2 (dict_set k v1 d) = dict_set k v2 d.
Proof.
  induction d as [|[k' v'] d IH]; simpl.
  - now rewrite String.eqb_refl.
  - destruct (String.eqb_spec k k') as [->|Hne]; simpl.
    + now rewrite String.eqb_refl.
    + destruct (String.eqb_spec k k'); [contradiction|]. now rewrite IH.
Qed.

Lemma dict_set_not_key (k x : string) (v : pyval) (d : dict) :
  k <> x -> ~ In x (List.map fst d) -> ~ In x (List.map fst (dict_set k v d)).
Proof.
  intros Hne Hx. rewrite dict_set_keys. destruct (dict_mem k d); [exact Hx|].
  rewrite in_app_iff. intros [H|[H|[]]]; [now apply Hx | congruence].
Qed.

Lemma fold_set_ok (d acc : dict) :
  dict_wf acc -> keys_lower acc ->
  dict_wf (fold_left (fun a kv => dict_set (lower (fst kv)) (snd kv) a) d acc) /\
  keys_lower (fold_left (fun a kv => dict_set (lower (fst kv)) (snd kv) a) d acc).
Proof.
  revert acc. induction d as [|[k v] d IH]; intros acc Hw Hl; simpl; [now split|].
  apply IH; [now apply dict_set_wf | apply dict_set_keys_lower; [apply lower_idem | exact Hl]].
Qed.

Lemma without_key_ok (x : string) (d : dict) :
  dict_wf d -> keys_lower d ->
  dict_wf (without_key x d) /\ keys_lower (without_key x d) /\
  ~ In x (List.map fst (without_key x d)).
Proof.
  unfold dict_wf, keys_lower, without_key. intros Hw Hl.
  induction d as [|[k v] d IH]; simpl.
  - repeat split; [constructor | constructor | intros []].
  - inversion Hw as [|? ? Hnotin Hw']; subst. inversion Hl as [|? ? Hk Hl']; subst.
    destruct (IH Hw' Hl') as (IH1 & IH2 & IH3).
    destruct (String.eqb_spec k x) as [->|Hne]; simpl; [now repeat split|].
    repeat split.
    + constructor; [|exact IH1]. intros Hin. apply Hnotin.
      apply in_map_iff in Hin as ([k' v'] & <- & Hin).
      apply filter_In in Hin as [Hin _]. now apply (in_map fst) in Hin.
    + now constructor.
    + intros [E|Hin]; [congruence | now apply IH3].
Qed.

(** X1. The copy of a mapping under lower-cased keys is again a dictionary:
    its keys are distinct and all in lower case, and a name is a key of it
    exactly when some key of the mapping lower-cases to it. *)
Theorem lower_keys_dict (d : dict) :
  dict_wf (lower_keys d) /\ keys_lower (lower_keys d) /\
  forall k, In k (List.map fst (lower_keys d)) <->
            exists k', In k' (List.map fst d) /\ lower k' = k.
Proof.
  destruct (fold_set_ok d []) as [Hw Hl]; [constructor | constructor |].
  split; [exact Hw|]. split; [exact Hl|].
  intros k. rewrite <- dict_mem_In. unfold dict_mem.
  rewrite dict_get_lower_keys.
  destruct (lookup_ci k d) as [w|] eqn:E.
  - split; [intros _ | reflexivity].
    destruct (List.in_dec String.string_dec k (List.map lower (List.map fst d)))
      as [Hin|Hnin].
    + apply in_map_iff in Hin as (k' & Hk' & Hin). now exists k'.
    + assert (lookup_ci k d = None) as E'.
      { apply lookup_ci_None. intros k' Hk' Heq. apply Hnin.
        rewrite <- Heq. now apply in_map. }
      congruence.
  - split; [discriminate|]. intros (k' & Hin & Heq).
    exfalso. exact (proj1 (lookup_ci_None k d) E k' Hin Heq).
Qed.

(** ** The hyperparameters a builder keeps *)

Lemma kwargs_ok_set_lr (lr : pyval) (d : dict) :
  kwargs_ok d -> kwargs_ok (dict_set "lr" lr d).
Proof.
  intros (Hw & Hl & Ho). split; [|split].
  - now apply dict_set_wf.
  - now apply dict_set_keys_lower.
  - apply dict_set_not_key; [discriminate | exact Ho].
Qed.

(** X2. The hyperparameters stored by Construct have distinct keys, all in
    lower case, and no key "opt"; set_lr keeps this, and so the keyword
    arguments that build_opt then passes have it as well. *)
Theorem stored_opt_args_ok (obj : string) (nin nout : Z)
    (margs oargs : dict) (l : LossArg)
    (bd : BodyBuilder) (li : InitLookup) (la : ActLookup)
    (s s' : store) (b : ModelBuilder) :
  Construct obj nin nout margs oargs l bd li la s = (Ok b, s') ->
  kwargs_ok (deref (opt_args b) s') /\
  forall lr, kwargs_ok (deref (opt_args b) (set_lr b lr s')) /\
  forall model, exists o s'',
    build_opt b model (set_lr b lr s') = (Some o, s'') /\
    kwargs_ok (deref (opt_kwargs o) s'').
Proof.
  intros H. pose proof (deref_Construct _ _ _ _ _ _ _ _ _ _ _ _ H) as Hd.
  apply Construct_Ok in H as (Hinv & _).
  assert (kwargs_ok (deref (opt_args b) s')) as Hok.
  { rewrite Hd. destruct (lower_keys_dict oargs) as (Hw & Hl & _).
    now apply without_key_ok. }
  split; [exact Hok|]. intros lr.
  assert (kwargs_ok (deref (opt_args b) (set_lr b lr s'))) as Hok'.
  { rewrite deref_set_lr by exact Hinv. now apply kwargs_ok_set_lr. }
  split; [exact Hok'|]. intros model.
  destruct (set_lr_inv b lr s' Hinv) as [Hs _].
  rewrite (build_opt_spec b model _ Hs). eexists _, _. split; [reflexivity|].
  simpl. unfold deref at 1. rewrite lookup_insert_eq. exact Hok'.
Qed.

Lemma stored_opt_args_ok_witness :
  exists b s,
    Construct "regression" 4 1 [] [("LR", VInt 1); ("Opt", VStr "sgd"); ("lr", VInt 2)]
      Auto stub_body stub_init stub_act ∅ = (Ok b, s) /\
    deref (opt_args b) s = [("lr", VInt 2)] /\
    kwargs_ok (deref (opt_args b) s).
Proof.
  eexists _, _. split; [vm_compute; reflexivity|]. split; [reflexivity|].
  exact (proj1 (stored_opt_args_ok "regression" 4 1 []
                  [("LR", VInt 1); ("Opt", VStr "sgd"); ("lr", VInt 2)]
                  Auto stub_body stub_init stub_act ∅ _ _ eq_refl)).
Defined.

(** X3. Construct leaves every dictionary already in the store as it was
    and keeps its hyperparameters in a new one.  So a builder shares them
    with no builder made before it: set_lr on either leaves the
    hyperparameters of the other unchanged. *)
Theorem builders_share_nothing (obj : string) (nin nout : Z)
    (margs oargs : dict) (l : LossArg)
    (bd : BodyBuilder) (li : InitLookup) (la : ActLookup)
    (s s' : store) (b b0 : ModelBuilder) :
  builder_inv b0 s ->
  Construct obj nin nout margs oargs l bd li la s = (Ok b, s') ->
  (forall k, is_Some (s !! k) -> s' !! k = s !! k) /\
  opt_args b <> opt_args b0 /\
  builder_inv b0 s' /\
  forall lr,
    deref (opt_args b0) (set_lr b lr s') = deref (opt_args b0) s /\
    deref (opt_args b) (set_lr b0 lr s') = deref (opt_args b) s'.
Proof.
  intros [Hs0 [d0 Hd0]] H.
  apply Construct_Ok in H as (_ & Hfresh & -> & _).
  assert (opt_args b <> opt_args b0) as Hne by (intros E; congruence).
  assert (forall k, is_Some (s !! k) ->
            <[opt_args b := without_key "opt" (lower_keys oargs)]> s !! k = s !! k)
    as Hframe.
  { intros k [x Hx]. apply lookup_insert_ne. intros E. congruence. }
  assert (is_Some (s !! opt_args b0)) as Hsome by (rewrite Hd0; now eexists).
  split; [exact Hframe|]. split; [exact Hne|]. split.
  - split; [exact Hs0|]. now rewrite Hframe.
  - intros lr. split.
    + unfold deref. rewrite set_lr_other by congruence.
      now rewrite Hframe.
    + unfold deref. now rewrite set_lr_other.
Qed.

Lemma builders_share_nothing_witness :
  exists b0 s0 b s,
    Construct "regression" 4 1 [] [("lr", VInt 3)] Auto
      stub_body stub_init stub_act ∅ = (Ok b0, s0) /\
    Construct "regression" 4 1 [] [("lr", VInt 3)] Auto
      stub_body stub_init stub_act s0 = (Ok b, s) /\
    deref (opt_args b0) (set_lr b (VInt 7) s) = [("lr", VInt 3)] /\
    deref (opt_args b) (set_lr b (VInt 7) s) = [("lr", VInt 7)].
Proof.
  eexists _, _, _, _.
  assert (builder_inv _ _) as Hinv
    by exact (proj1 (Construct_Ok "regression" 4 1 [] [("lr", VInt 3)] Auto
                       stub_body stub_init stub_act ∅ _ _ eq_refl)).
  destruct (builders_share_nothing "regression" 4 1 [] [("lr", VInt 3)] Auto
              stub_body stub_init stub_act _ _ _ _ Hinv eq_refl)
    as (_ & _ & _ & Hlr).
  split; [reflexivity|]. split; [reflexivity|].
  split; [exact (eq_trans (proj1 (Hlr (VInt 7))) eq_refl) | reflexivity].
Defined.

(** ** set_lr *)

(** X4. set_lr changes the entry "lr" of the builder's hyperparameters and
    nothing else: every other hyperparameter and every other dictionary of
    the store is as before, and of two calls in a row only the second
    counts. *)
Theorem set_lr_only_lr (self : ModelBuilder) (lr1 lr2 : pyval) (s : store) :
  builder_inv self s ->
  dict_get "lr" (deref (opt_args self) (set_lr self lr2 s)) = Some lr2 /\
  (forall k, k <> "lr" ->
     dict_get k (deref (opt_args self) (set_lr self lr2 s)) =
     dict_get k (deref (opt_args self) s)) /\
  (forall k, k <> opt_args self -> set_lr self lr2 s !! k = s !! k) /\
  set_lr self lr2 (set_lr self lr1 s) = set_lr self lr2 s.
Proof.
  intros Hinv. rewrite (deref_set_lr self lr2 s Hinv).
  split; [apply dict_get_set_eq|]. split; [|split].
  - intros k Hk. apply dict_get_set_ne. congruence.
  - intros k Hk. now apply set_lr_other.
  - unfold set_lr. apply map_eq. intros k.
    destruct (decide (k = opt_args self)) as [->|Hne].
    + rewrite !lookup_alter_eq. destruct (s !! opt_args self); simpl; [|reflexivity].
      now rewrite dict_set_set.
    + now rewrite !lookup_alter_ne by congruence.
Qed.

Lemma set_lr_only_lr_witness :
  exists b s,
    Construct "regression" 4 1 [] [("momentum", VInt 0); ("lr", VInt 3)] Auto
      stub_body stub_init stub_act ∅ = (Ok b, s) /\
    dict_get "momentum" (deref (opt_args b) (set_lr b (VInt 7) s)) = Some (VInt 0) /\
    set_lr b (VInt 7) (set_lr b (VInt 5) s) = set_lr b (VInt 7) s.
Proof.
  eexists _, _.
  assert (builder_inv _ _) as Hinv
    by exact (proj1 (Construct_Ok "regression" 4 1 []
                       [("momentum", VInt 0); ("lr", VInt 3)] Auto
                       stub_body stub_init stub_act ∅ _ _ eq_refl)).
  destruct (set_lr_only_lr _ (VInt 5) (VInt 7) _ Hinv) as (_ & Hk & _ & Hlast).
  split; [reflexivity|]. split; [|exact Hlast].
  refine (eq_trans (Hk "momentum" _) eq_refl). discriminate.
Defined.

(** ** build_opt *)

(** X5. build_opt returns an optimizer exactly when the builder's kind is
    "adam" or "sgd"; otherwise it returns None and the store is as before.
    Each optimizer holds a copy of the builder's hyperparameters in an
    object of its own: the builder's hyperparameters are untouched, and two
    optimizers built in a row hold equal keyword arguments in different
    objects. *)
Theorem build_opt_copies (self : ModelBuilder) (m1 m2 : Module) (s : store) :
  (supported_opt (opt self) = false -> build_opt self m1 s = (None, s)) /\
  (builder_inv self s ->
   exists o1 s1 o2 s2,
     build_opt self m1 s = (Some o1, s1) /\
     build_opt self m2 s1 = (Some o2, s2) /\
     opt_kwargs o1 <> opt_kwargs o2 /\
     deref (opt_kwargs o1) s2 = deref (opt_args self) s /\
     deref (opt_kwargs o2) s2 = deref (opt_args self) s /\
     deref (opt_args self) s2 = deref (opt_args self) s).
Proof.
  split.
  - unfold supported_opt, build_opt. intros H.
    apply orb_false_iff in H as [-> ->]. reflexivity.
  - intros Hinv. pose proof Hinv as [Hs [d Hd]].
    rewrite (build_opt_spec self m1 s Hs).
    set (k1 := fresh (dom s)). set (s1 := <[k1 := deref (opt_args self) s]> s).
    eexists _, s1. rewrite (build_opt_spec self m2 s1 Hs).
    set (k2 := fresh (dom s1)).
    eexists _, _. split; [reflexivity|]. split; [reflexivity|]. simpl.
    assert (k1 <> opt_args self) as Hk1.
    { intros E. subst k1. rewrite <- E, fresh_unused in Hd. discriminate Hd. }
    assert (s1 !! k1 = Some (deref (opt_args self) s)) as H1
      by (subst s1; apply lookup_insert_eq).
    assert (s1 !! opt_args self = Some d) as H1a
      by (subst s1; now rewrite lookup_insert_ne).
    assert (k2 <> k1) as Hk21.
    { intros E. subst k2. rewrite <- E, fresh_unused in H1. discriminate H1. }
    assert (k2 <> opt_args self) as Hk2.
    { intros E. subst k2. rewrite <- E, fresh_unused in H1a. discriminate H1a. }
    assert (deref (opt_args self) s1 = deref (opt_args self) s) as Hsame.
    { unfold deref. now rewrite H1a, Hd. }
    split; [congruence|]. rewrite Hsame. split; [|split].
    + unfold deref at 1. now rewrite lookup_insert_ne, H1 by congruence.
    + unfold deref at 1. now rewrite lookup_insert_eq.
    + unfold deref at 1. rewrite lookup_insert_ne by congruence.
      rewrite H1a. unfold deref. now rewrite Hd.
Qed.

Lemma build_opt_copies_witness :
  exists b s o1 s1 o2 s2,
    Construct "regression" 4 1 [] [("lr", VInt 3)] Auto
      stub_body stub_init stub_act ∅ = (Ok b, s) /\
    build_opt b (Sequential []) s = (Some o1, s1) /\
    build_opt b (Sequential []) s1 = (Some o2, s2) /\
    opt_kwargs o1 <> opt_kwargs o2 /\
    deref (opt_kwargs o1) s2 = [("lr", VInt 3)] /\
    deref (opt_kwargs o2) s2 = [("lr", VInt 3)].
Proof.
  eexists _, _.
  assert (builder_inv _ _) as Hinv
    by exact (proj1 (Construct_Ok "regression" 4 1 [] [("lr", VInt 3)] Auto
                       stub_body stub_init stub_act ∅ _ _ eq_refl)).
  destruct (proj2 (build_opt_copies _ (Sequential []) (Sequential []) _) Hinv)
    as (o1 & s1 & o2 & s2 & H1 & H2 & Hne & Hd1 & Hd2 & _).
  exists o1, s1, o2, s2. split; [reflexivity|].
  split; [exact H1|]. split; [exact H2|]. split; [exact Hne|].
  split; [exact (eq_trans Hd1 eq_refl) | exact (eq_trans Hd2 eq_refl)].
Defined.

(** ** Dense blocks: normalization and dropout *)

(** X6. A dense block has a dropout layer (of either kind) exactly when the
    dropout rate passes [if self.do] and the block is not the output layer,
    and then its rate is [self.do]; it has a BatchNorm1d layer exactly when
    [self.bn] passes and the block is not the output layer, and then over
    [fan_out] features.  An output block has neither, whatever the
    configuration. *)
Theorem dense_block_extras (self : ModelBuilder) (fi fo : option pyval)
    (a0 : option string) (last_layer : bool) :
  let ls := layers_of (get_dense self fi fo a0 last_layer) in
  ((exists p, In (Dropout p) ls \/ In (AlphaDropout p) ls) <->
   truthy (do self) = true /\ last_layer = false) /\
  (forall p, In (Dropout p) ls \/ In (AlphaDropout p) ls -> p = do self) /\
  ((exists n, In (BatchNorm1d n) ls) <->
   truthy (bn self) = true /\ last_layer = false) /\
  (forall n, In (BatchNorm1d n) ls -> n = default (width self) fo).
Proof.
  cbv zeta. rewrite get_dense_layers. cbn [layers_of].
  set (A := if negb (String.eqb (default (act self) a0) "linear")
            then [Ext (lookup_act self (default (act self) a0))] else []).
  assert (forall m, In m A -> exists e, m = Ext e) as HA.
  { subst A. intros m. case_if; simpl; [|tauto]. intros [<-|[]]. now eexists. }
  assert (forall m, In m A -> (forall e, m <> Ext e) -> False) as HA'.
  { intros m Hm Hne. destruct (HA m Hm) as [e ->]. now apply (Hne e). }
  split; [|split; [|split]].
  - split.
    + intros [p H]. rewrite !in_app_iff in H.
      destruct (truthy (do self) && negb last_layer) eqn:E.
      * apply andb_true_iff in E as [-> E]. now destruct last_layer.
      * exfalso. repeat case_if_in H; simpl in H;
          intuition (try discriminate; eauto using HA'; try (eapply HA'; [eassumption|discriminate])).
    + intros [-> ->]. exists (do self). rewrite !in_app_iff. cbn [andb negb].
      repeat case_if; simpl; auto 10.
  - intros p H. rewrite !in_app_iff in H.
    repeat case_if_in H; simpl in H;
      intuition (try discriminate; try congruence;
                 try (exfalso; eapply HA'; [eassumption|discriminate])).
  - split.
    + intros [n H]. rewrite !in_app_iff in H.
      destruct (truthy (bn self) && negb last_layer) eqn:E.
      * apply andb_true_iff in E as [-> E]. now destruct last_layer.
      * exfalso. repeat case_if_in H; simpl in H;
          intuition (try discriminate; try (eapply HA'; [eassumption|discriminate])).
    + intros [-> ->]. exists (default (width self) fo). rewrite !in_app_iff.
      cbn [andb negb]. simpl. auto 10.
  - intros n H. rewrite !in_app_iff in H.
    repeat case_if_in H; simpl in H;
      intuition (try discriminate; try congruence;
                 try (exfalso; eapply HA'; [eassumption|discriminate])).
Qed.

Lemma dense_block_extras_witness :
  exists b s,
    Construct "regression" 4 1 [("bn", VBool true); ("do", VInt 1)] [] Auto
      stub_body stub_init stub_act ∅ = (Ok b, s) /\
    layers_of (get_dense b None None None true) =
      [Linear (VInt 100) (VInt 100) (VObj "relu") []; Ext (stub_act "relu")] /\
    (exists n, In (BatchNorm1d n) (layers_of (get_dense b None None None false))) /\
    ~ (exists n, In (BatchNorm1d n) (layers_of (get_dense b None None None true))).
Proof.
  eexists _, _. split; [vm_compute; reflexivity|]. split; [reflexivity|].
  match goal with
  | |- (exists n, In _ (layers_of (get_dense ?b _ _ _ _))) /\ _ =>
      pose proof (dense_block_extras b None None None false) as (_ & _ & Hin & _);
      pose proof (dense_block_extras b None None None true) as (_ & _ & Hout & _)
  end.
  split.
  - apply Hin. split; reflexivity.
  - intros H. apply Hout in H as [_ H]. discriminate H.
Defined.

(** X7. The activation name given in model_config is lower-cased: with
    "act" spelled "selu" in any case and a dropout rate that passes
    [if self.do], the head of the built network ends in AlphaDropout of
    that rate. *)
Theorem head_selu_any_case (obj : string) (nin nout : Z)
    (margs oargs : dict) (l : LossArg)
    (bd : BodyBuilder) (li : InitLookup) (la : ActLookup)
    (s s' : store) (b : ModelBuilder) (a : string) (p : pyval) :
  Construct obj nin nout margs oargs l bd li la s = (Ok b, s') ->
  lookup_ci "act" margs = Some (VStr a) -> lower a = "selu" ->
  lookup_ci "do" margs = Some p -> truthy p = true ->
  act b = "selu" /\ do b = p /\
  final_layer (get_head b) = Some (AlphaDropout p).
Proof.
  intros H Ha Hl Hp Ht.
  apply Construct_Ok in H as (_ & _ & _ & _ & _ & _ & _ & _ & _ & _ & _ & Hm).
  rewrite parse_model_args_spec, Ha, Hp in Hm. simpl in Hm. rewrite Hl in Hm.
  injection Hm as _ _ Hdo _ Hact _ _.
  split; [congruence|]. split; [congruence|].
  assert (truthy (do b) = true) as Hdo' by congruence.
  unfold get_head. rewrite get_dense_layers. cbn [default from_option id].
  rewrite <- Hact, Hdo'. cbn [andb negb String.eqb Ascii.eqb Bool.eqb].
  rewrite !app_assoc, final_layer_snoc. congruence.
Qed.

Lemma head_selu_any_case_witness :
  exists b s,
    Construct "regression" 4 1 [("Act", VStr "SeLU"); ("DO", VInt 1)] [] Auto
      stub_body stub_init stub_act ∅ = (Ok b, s) /\
    final_layer (get_head b) = Some (AlphaDropout (VInt 1)).
Proof.
  eexists _, _. split; [vm_compute; reflexivity|].
  eapply (head_selu_any_case "regression" 4 1 [("Act", VStr "SeLU"); ("DO", VInt 1)]
            [] Auto stub_body stub_init stub_act ∅ _ _ "SeLU" (VInt 1) eq_refl);
    reflexivity.
Defined.

(** ** build_model and get_model *)

Lemma last_map_Some_snoc (ps : list Z) (p : Z) :
  List.last (List.map Some (ps ++ [p])) None = Some p.
Proof. rewrite List.map_app. apply List.last_last. Qed.

Lemma body_out_size_Raise (B : Extern) (e : exn) :
  body_out_size B = Raise e ->
  get_out_size B = None /\ parameters B = [] /\
  e = ValueError "not enough values to unpack".
Proof.
  unfold body_out_size. destruct (get_out_size B); [discriminate|].
  destruct (parameters B) as [|p ps] using List.rev_ind.
  - simpl. now intros [= <-].
  - now rewrite last_map_Some_snoc.
Qed.

(** X8. How build_model ends.  It returns the sequence of the head, the
    body built for depth - 1 and the tail on the body's output width; or it
    raises TypeError because [self.depth - 1] is not defined (depth is not a
    number); or, depth being a number, it raises ValueError because the body
    has no [get_out_size] and no parameters to read a width from. *)
Theorem build_model_outcome (self : ModelBuilder) :
  match build_model self with
  | Ok m =>
      exists d n,
        sub1 (depth self) = Ok d /\
        body_out_size (get_body self d) = Ok n /\
        m = Sequential [get_head self; Ext (get_body self d); get_tail self n]
  | Raise e =>
      (e = TypeError /\
       match depth self with
       | VInt _ | VBool _ | VFloat _ => False
       | _ => True
       end) \/
      (exists d,
         sub1 (depth self) = Ok d /\
         get_out_size (get_body self d) = None /\
         parameters (get_body self d) = [] /\
         e = ValueError "not enough values to unpack")
  end.
Proof.
  unfold build_model.
  destruct (sub1 (depth self)) as [d|e] eqn:Hd; simpl.
  - destruct (body_out_size (get_body self d)) as [n|e] eqn:Hn; simpl.
    + now exists d, n.
    + right. exists d. split; [reflexivity|]. now apply body_out_size_Raise.
  - left. destruct (depth self); simpl in Hd; try discriminate;
      injection Hd as <-; now split.
Qed.

(** X9. The width the tail is built on: the body's [get_out_size()] when it
    has one, whatever its parameters; else the length of the last of its
    parameters. *)
Theorem build_model_tail_width (self : ModelBuilder) (d : pyval) :
  sub1 (depth self) = Ok d ->
  (forall n, get_out_size (get_body self d) = Some n ->
     build_model self =
     Ok (Sequential [get_head self; Ext (get_body self d); get_tail self n])) /\
  (forall ps p,
     get_out_size (get_body self d) = None ->
     parameters (get_body self d) = (ps ++ [p])%list ->
     build_model self =
     Ok (Sequential [get_head self; Ext (get_body self d);
                     get_tail self (VInt p)])).
Proof.
  intros Hd. unfold build_model. rewrite Hd. simpl. split.
  - intros n Hn. unfold body_out_size. now rewrite Hn.
  - intros ps p Hn Hp. unfold body_out_size.
    now rewrite Hn, Hp, last_map_Some_snoc.
Qed.

Lemma build_model_tail_width_witness :
  exists b s,
    Construct "regression" 4 1 [] [] Auto stub_body_params stub_init stub_act ∅
      = (Ok b, s) /\
    build_model b =
    Ok (Sequential [get_head b;
                    Ext (stub_body_params (VInt 3) (VInt 100) (VInt 0) (VBool false)
                           "relu" (VBool false) (VBool false));
                    get_tail b (VInt 32)]).
Proof.
  eexists _, _. split; [vm_compute; reflexivity|].
  match goal with
  | |- build_model ?b = _ =>
      exact (proj2 (build_model_tail_width b (VInt 3) eq_refl)
                   [64; 64; 32] 32 eq_refl eq_refl)
  end.
Defined.

(** X10. get_model on a builder whose invariant holds: when build_model
    raises, get_model raises the same and no optimizer is built (the store
    is as before); otherwise it returns the model, an optimizer over that
    very model holding a copy of the builder's current hyperparameters, and
    the builder's loss, and the invariant still holds. *)
Theorem get_model_outcome (self : ModelBuilder) (s : store) :
  builder_inv self s ->
  match build_model self with
  | Raise e => get_model self s = (Raise e, s)
  | Ok m =>
      exists o s',
        get_model self s = (Ok (m, Some o, loss self), s') /\
        opt_model o = m /\
        opt_class o = (if eq_str (opt self) "adam" then Adam else SGD) /\
        deref (opt_kwargs o) s' = deref (opt_args self) s /\
        opt_kwargs o <> opt_args self /\
        builder_inv self s'
  end.
Proof.
  intros Hinv. pose proof Hinv as [Hs [d Hd]]. unfold get_model.
  destruct (build_model self) as [m|e]; [|reflexivity].
  pose proof (build_opt_inv self m s Hinv) as Hinv'.
  rewrite (build_opt_spec self m s Hs) in *. eexists _, _.
  split; [reflexivity|]. simpl. split; [reflexivity|]. split; [reflexivity|].
  split; [|split; [|exact Hinv']].
  - unfold deref at 1. now rewrite lookup_insert_eq.
  - intros E. rewrite <- E, fresh_unused in Hd. discriminate Hd.
Qed.

Lemma get_model_outcome_witness :
  exists b s m o s',
    Construct "regression" 4 1 [] [("lr", VInt 3)] Auto
      stub_body stub_init stub_act ∅ = (Ok b, s) /\
    get_model b s = (Ok (m, Some o, MSELoss), s') /\
    opt_model o = m /\ opt_class o = Adam /\
    deref (opt_kwargs o) s' = [("lr", VInt 3)].
Proof.
  eexists _, _.
  assert (builder_inv _ _) as Hinv
    by exact (proj1 (Construct_Ok "regression" 4 1 [] [("lr", VInt 3)] Auto
                       stub_body stub_init stub_act ∅ _ _ eq_refl)).
  pose proof (get_model_outcome _ _ Hinv) as H.
  destruct H as (o & s' & Hg & Hm & Hc & Hd & _).
  eexists _, o, s'. split; [reflexivity|].
  split; [exact Hg|]. split; [exact Hm|]. split; [exact Hc|].
  exact (eq_trans Hd eq_refl).
Defined.

(** ** The loss and the tail *)

(** X11. With loss left as 'auto', the loss Construct resolves is the
    negative log-likelihood exactly when the lower-cased objective contains
    "class" and "multi" and n_out > 1, the mean squared error exactly when
    it does not contain "class", and the binary cross-entropy in the
    remaining case. *)
Theorem auto_loss_iff (obj : string) (nin nout : Z)
    (margs oargs : dict) (bd : BodyBuilder) (li : InitLookup) (la : ActLookup)
    (s s' : store) (b : ModelBuilder) :
  Construct obj nin nout margs oargs Auto bd li la s = (Ok b, s') ->
  (loss b = NLLLoss <->
   contains "class" (lower obj) = true /\ contains "multi" (lower obj) = true /\
   1 < nout) /\
  (loss b = BCELoss <->
   contains "class" (lower obj) = true /\
   (contains "multi" (lower obj) = false \/ nout <= 1)) /\
  (loss b = MSELoss <-> contains "class" (lower obj) = false).
Proof.
  intros H. apply Construct_Ok in H as (_ & _ & _ & _ & -> & _).
  unfold parse_loss.
  destruct (contains "class" (lower obj)), (contains "multi" (lower obj)),
    (Z.ltb_spec 1 nout); cbn [andb];
    (split; [|split]); split; try discriminate; try reflexivity;
    intuition (try discriminate; try lia).
Qed.

Lemma auto_loss_iff_witness :
  exists b s,
    Construct "MultiClass" 8 5 [] [] Auto stub_body stub_init stub_act ∅ = (Ok b, s) /\
    loss b = NLLLoss.
Proof.
  eexists _, _. split; [vm_compute; reflexivity|].
  apply (proj1 (auto_loss_iff "MultiClass" 8 5 [] [] stub_body stub_init stub_act
                  ∅ _ _ eq_refl)).
  repeat split.
Defined.

Lemma multi_single_output_witness :
  exists b s,
    Construct "Multi-Class" 8 0 [] [] Auto stub_body stub_init stub_act ∅ = (Ok b, s) /\
    loss b = BCELoss /\
    final_layer (get_tail b (VInt 100)) = Some (Ext (stub_act "logsoftmax")).
Proof.
  eexists _, _. split; [vm_compute; reflexivity|].
  apply (multi_single_output "Multi-Class" 8 0 [] [] stub_body stub_init stub_act
           ∅ _ _ (VInt 100) eq_refl); [reflexivity | reflexivity | discriminate].
Defined.

(** X13. The tail is the linear layer to n_out, from the width it is given
    or, when that is None, from the configured width, with the
    initialization looked up for its activation, followed by the log-softmax
    module when the objective contains "class" and "multi", by the sigmoid
    module when it contains "class" but not "multi", and by nothing
    otherwise.  Activation, normalization and dropout of the configuration
    never enter it, and the configured width only when the given one is
    None: two builders with the same objective, n_out and lookups (and, for
    a None width, the same configured width) build the same tail. *)
Theorem tail_by_objective_alone (self : ModelBuilder) (n : pyval) :
  (let a := if contains "class" (objective self) then
              if contains "multi" (objective self) then "logsoftmax" else "sigmoid"
            else "linear" in
   let fan_in := match n with VNone => width self | _ => n end in
   layers_of (get_tail self n) =
     Linear fan_in (VInt (n_out self))
       (lookup_init self a fan_in (VInt (n_out self))).1
       (lookup_init self a fan_in (VInt (n_out self))).2 ::
     (if contains "class" (objective self) then [Ext (lookup_act self a)] else [])) /\
  (forall other,
     objective other = objective self -> n_out other = n_out self ->
     lookup_init other = lookup_init self -> lookup_act other = lookup_act self ->
     (n = VNone -> width other = width self) ->
     get_tail other n = get_tail self n).
Proof.
  split.
  - cbv zeta. rewrite get_tail_spec. cbn [layers_of].
    assert (default (width self) (optional n) =
            match n with VNone => width self | _ => n end) as ->
      by now destruct n.
    destruct (contains "class" (objective self));
      [destruct (contains "multi" (objective self))|]; reflexivity.
  - intros other Ho Hn Hi Ha Hw. rewrite !get_tail_spec.
    assert (default (width other) (optional n) = default (width self) (optional n))
      as -> by (destruct n; simpl; auto).
    now rewrite Ho, Hn, Hi, Ha.
Qed.

Lemma tail_by_objective_alone_witness :
  exists b1 s1 b2 s2,
    Construct "classifier" 4 1 [] [] Auto stub_body stub_init stub_act ∅ = (Ok b1, s1) /\
    Construct "Classifier" 9 1
      [("width", VInt 7); ("act", VStr "selu"); ("bn", VBool true); ("do", VInt 1)]
      [("opt", VStr "sgd")] Auto stub_body stub_init stub_act ∅ = (Ok b2, s2) /\
    get_tail b2 (VInt 7) = get_tail b1 (VInt 7) /\
    layers_of (get_tail b1 (VInt 7)) =
      [Linear (VInt 7) (VInt 1) (VObj "sigmoid") []; Ext (stub_act "sigmoid")] /\
    layers_of (get_tail b2 VNone) =
      [Linear (VInt 7) (VInt 1) (VObj "sigmoid") []; Ext (stub_act "sigmoid")] /\
    layers_of (get_tail b1 VNone) =
      [Linear (VInt 100) (VInt 1) (VObj "sigmoid") []; Ext (stub_act "sigmoid")].
Proof.
  eexists _, _, _, _. split; [vm_compute; reflexivity|].
  split; [vm_compute; reflexivity|].
  match goal with
  | |- get_tail ?b2 _ = get_tail ?b1 _ /\ _ =>
      pose proof (tail_by_objective_alone b1 (VInt 7)) as [Hl Hsame];
      pose proof (tail_by_objective_alone b2 VNone) as [Hl2 _];
      pose proof (tail_by_objective_alone b1 VNone) as [Hl1 _]
  end.
  split; [apply Hsame; try reflexivity; discriminate|].
  split; [exact (eq_trans Hl eq_refl)|].
  split; [exact (eq_trans Hl2 eq_refl) | exact (eq_trans Hl1 eq_refl)].
Defined.

(** ** Recognized keys that are present *)

(** X14. A recognized key that is present, in any case, gives its value as
    it is, of whatever type, and of several entries for the same key the
    last one counts; only the value of "act" is changed, to lower case, and
    it has to be a string. *)
Theorem present_keys_taken (d1 d2 : dict) (k : string) (v : pyval) (ma : ModelArgs) :
  missing (lower k) d2 ->
  parse_model_args (d1 ++ (k, v) :: d2)%list = Ok ma ->
  (lower k = "width" -> ma_width ma = v) /\
  (lower k = "depth" -> ma_depth ma = v) /\
  (lower k = "do" -> ma_do ma = v) /\
  (lower k = "bn" -> ma_bn ma = v) /\
  (lower k = "act" -> exists a, v = VStr a /\ ma_act ma = lower a) /\
  (lower k = "res" -> ma_res ma = v) /\
  (lower k = "dense" -> ma_dense ma = v).
Proof.
  intros Hm H. rewrite parse_model_args_spec in H.
  destruct (match lookup_ci "act" (d1 ++ (k, v) :: d2)%list with
            | Some v => py_lower v
            | None => Ok "relu"
            end) as [a|] eqn:Ha; [|discriminate].
  injection H as <-. cbn.
  repeat split; intros Hk; rewrite Hk in Hm;
    try (now rewrite (lookup_ci_last _ k v d1 d2 Hk Hm)).
  rewrite (lookup_ci_last _ k v d1 d2 Hk Hm) in Ha.
  destruct v; simpl in Ha; try discriminate. injection Ha as <-. now eexists.
Qed.

Lemma present_keys_taken_witness :
  exists ma,
    parse_model_args [("width", VInt 10); ("Width", VStr "wide"); ("act", VStr "Tanh")]
      = Ok ma /\
    ma_width ma = VStr "wide".
Proof.
  eexists. split; [vm_compute; reflexivity|].
  refine (proj1 (present_keys_taken [("width", VInt 10)] [("act", VStr "Tanh")]
                   "Width" (VStr "wide") _ _ eq_refl) eq_refl).
  intros k' [<-|[]]. discriminate.
Defined.

(** * lumin.plotting.interpretation *)

(** X15. The [cluster] argument that plot_1d_partial_dependence passes to
    pdp_plot is True for every value of n_clusters, 0 and None included:
    [n_clusters is not None or n_clusters != 0] cannot be False. *)
Theorem cluster_arg_always (n_clusters : pyval) : cluster_arg n_clusters = true.
Proof.
  unfold cluster_arg. destruct n_clusters; simpl; try reflexivity.
Qed.
